(** * opensea-js: the data contracts of [src/lib/types.d.ts]

    The file under study is a TypeScript declaration file: enumerations,
    interfaces and type aliases, no executable statements.  The development
    embeds it in three layers.

    - [ty], [field], [decl]: the declarations as data, one [Decl.X] per
      declaration [X] of the file, in the order of the file.
    - [properties], [has_type]: what the declarations mean.  [properties]
      computes the property list of an object type through [extends],
      [Partial] and [Omit]; [has_type] decides whether a JavaScript value
      conforms to a type, with TypeScript's structural reading of interfaces
      (required properties present, optional ones absent or conforming,
      further properties allowed).
    - [UnhashedOrder], [OrderJSON], [WyvernBundle], [ComputedFees] as
      records, with the decimal-string converters between the SDK-side and
      wire-side shapes and the computation of the fee totals.  The
      converters and the fee computation are not part of [types.d.ts]; they
      follow the specification and say so. *)

From Stdlib Require Import ZArith String Ascii List Bool Lia Floats.
From Stdlib Require Import DecimalString DecimalZ DecimalPos.
From Stdlib Require Uint63.
Import ListNotations.

Set Warnings "-register-all".

Local Open Scope string_scope.
Local Open Scope list_scope.

(* ================================================================= *)
(** ** The type language of the declaration file *)

(** Type expressions as they occur in [types.d.ts].  [BigNumber], [Date],
    [Error] and [Map] come from outside the file and are kept as built-in
    constructors; [AbiItem] and [OrderV2] are imported names of which only
    the name is known. *)
Inductive ty : Type :=
| TString
| TNumber
| TBoolean
| TNull
| TUndefined
| TVoid
| TAny
| TUnknown
| TObject
| TBigNumber
| TDate
| TError
| TImported (name : string)
| TVar (name : string)
| TRef (name : string) (args : list ty)
| TArray (elem : ty)
| TUnion (l r : ty)
| TTuple (slots : list ty)
| TMap (key val : ty)
| TPartial (base : ty)
| TOmit (base : ty) (keys : list string)
| TFun (params : list (string * ty)) (ret : ty).

Abbreviation Ref n := (TRef n nil).

(** A property signature [name: T] or [name?: T]. *)
Record field : Type := mkField {
  fname : string;
  fopt : bool;
  ftype : ty
}.

Definition req (n : string) (t : ty) : field := mkField n false t.
Definition opt (n : string) (t : ty) : field := mkField n true t.

(** A top-level declaration.  An interface lists the types it extends, its
    own property signatures and its index signature [[key: string]: T] if
    it has one.  The object-literal alias [WyvernConfig] is recorded as an
    interface without heritage, which is what it is structurally. *)
Inductive decl : Type :=
| DEnumStr (members : list (string * string))
| DEnumNum (members : list (string * float))
| DInterface (extends : list ty) (own : list field) (index : option ty)
| DAlias (params : list string) (body : ty).

(* ================================================================= *)
(** ** The declarations of [types.d.ts] *)

Module Decl.

Definition EventType : decl :=
  DEnumStr
    [ ("TransactionCreated", "TransactionCreated");
      ("TransactionConfirmed", "TransactionConfirmed");
      ("TransactionDenied", "TransactionDenied");
      ("TransactionFailed", "TransactionFailed");
      ("InitializeAccount", "InitializeAccount");
      ("WrapEth", "WrapEth");
      ("UnwrapWeth", "UnwrapWeth");
      ("ApproveCurrency", "ApproveCurrency");
      ("ApproveAsset", "ApproveAsset");
      ("ApproveAllAssets", "ApproveAllAssets");
      ("UnapproveCurrency", "UnapproveCurrency");
      ("MatchOrders", "MatchOrders");
      ("CancelOrder", "CancelOrder");
      ("BulkCancelExistingOrders", "BulkCancelExistingOrders");
      ("ApproveOrder", "ApproveOrder");
      ("CreateOrder", "CreateOrder");
      ("OrderDenied", "OrderDenied");
      ("TransferAll", "TransferAll");
      ("TransferOne", "TransferOne");
      ("WrapAssets", "WrapAssets");
      ("UnwrapAssets", "UnwrapAssets");
      ("LiquidateAssets", "LiquidateAssets");
      ("PurchaseAssets", "PurchaseAssets") ].

Definition EventData : decl :=
  DInterface []
    [ opt "accountAddress" TString;
      opt "toAddress" TString;
      opt "proxyAddress" TString;
      opt "amount" TBigNumber;
      opt "contractAddress" TString;
      opt "assets" (TArray (Ref "WyvernAsset"));
      opt "asset" (Ref "WyvernAsset");
      opt "transactionHash" TString;
      opt "event" (Ref "EventType");
      opt "error" TUnknown;
      opt "order" (TUnion (Ref "Order") (Ref "UnsignedOrder"));
      opt "orderV2" (TImported "OrderV2");
      opt "buy" (Ref "Order");
      opt "sell" (Ref "Order");
      opt "matchMetadata" TString ]
    None.

Definition OpenSeaAPIConfig : decl :=
  DInterface []
    [ opt "networkName" (Ref "Network");
      opt "apiKey" TString;
      opt "apiBaseUrl" TString;
      opt "useReadOnlyProvider" TBoolean;
      opt "gasPrice" TBigNumber;
      opt "wyvernConfig" (Ref "WyvernConfig") ]
    None.

Definition Network : decl :=
  DEnumStr
    [ ("Main", "main");
      ("Goerli", "goerli");
      ("Rinkeby", "rinkeby") ].

Definition WyvernConfig : decl :=
  DInterface []
    [ req "network" (Ref "Network");
      opt "gasPrice" TBigNumber;
      opt "wyvernExchangeContractAddress" TString;
      opt "wyvernProxyRegistryContractAddress" TString;
      opt "wyvernDAOContractAddress" TString;
      opt "wyvernTokenContractAddress" TString;
      opt "wyvernAtomicizerContractAddress" TString;
      opt "wyvernTokenTransferProxyContractAddress" TString ]
    None.

Definition OrderSide : decl :=
  DEnumNum
    [ ("Buy", 0%float);
      ("Sell", 1%float) ].

Definition FeeMethod : decl :=
  DEnumNum
    [ ("ProtocolFee", 0%float);
      ("SplitFee", 1%float) ].

Definition SaleKind : decl :=
  DEnumNum
    [ ("FixedPrice", 0%float);
      ("DutchAuction", 1%float) ].

Definition AssetContractType : decl :=
  DEnumStr
    [ ("Fungible", "fungible");
      ("SemiFungible", "semi-fungible");
      ("NonFungible", "non-fungible");
      ("Unknown", "unknown") ].

Definition WyvernSchemaName : decl :=
  DEnumStr
    [ ("ERC20", "ERC20");
      ("ERC721", "ERC721");
      ("ERC721v3", "ERC721v3");
      ("ERC1155", "ERC1155");
      ("LegacyEnjin", "Enjin");
      ("ENSShortNameAuction", "ENSShortNameAuction") ].

Definition TokenStandardVersion : decl :=
  DEnumStr
    [ ("Unsupported", "unsupported");
      ("Locked", "locked");
      ("Enjin", "1155-1.0");
      ("ERC721v1", "1.0");
      ("ERC721v2", "2.0");
      ("ERC721v3", "3.0") ].

Definition Fees : decl :=
  DInterface []
    [ req "openseaFees" (TMap TString TNumber);
      req "sellerFees" (TMap TString TNumber) ]
    None.

Definition WyvernNFTAsset : decl :=
  DInterface []
    [ req "id" TString;
      req "address" TString ]
    None.

Definition WyvernFTAsset : decl :=
  DInterface []
    [ opt "id" TString;
      req "address" TString;
      req "quantity" TString ]
    None.

Definition WyvernAsset : decl :=
  DAlias []
    (TUnion (Ref "WyvernNFTAsset") (Ref "WyvernFTAsset")).

Definition WyvernBundle : decl :=
  DInterface []
    [ req "assets" (TArray (Ref "WyvernAsset"));
      req "schemas" (TArray (Ref "WyvernSchemaName"));
      opt "name" TString;
      opt "description" TString;
      opt "external_link" TString ]
    None.

Definition WyvernAtomicMatchParameters : decl :=
  DAlias []
    (TTuple
       [ TArray TString;
         TArray TBigNumber;
         TArray (TUnion TNumber TBigNumber);
         TString;
         TString;
         TString;
         TString;
         TString;
         TString;
         TArray (TUnion TNumber TBigNumber);
         TArray TString ]).

Definition OpenSeaAccount : decl :=
  DInterface []
    [ req "address" TString;
      req "config" TString;
      req "profileImgUrl" TString;
      req "user" (TUnion (Ref "OpenSeaUser") TNull) ]
    None.

Definition OpenSeaUser : decl :=
  DInterface []
    [ opt "username" TString ]
    None.

Definition Asset : decl :=
  DInterface []
    [ req "tokenId" (TUnion TString TNull);
      req "tokenAddress" TString;
      opt "schemaName" (Ref "WyvernSchemaName");
      opt "version" (Ref "TokenStandardVersion");
      opt "name" TString;
      opt "decimals" TNumber ]
    None.

Definition OpenSeaAssetContract : decl :=
  DInterface [Ref "OpenSeaFees"]
    [ req "name" TString;
      req "address" TString;
      req "type" (Ref "AssetContractType");
      req "schemaName" (Ref "WyvernSchemaName");
      req "sellerFeeBasisPoints" TNumber;
      req "buyerFeeBasisPoints" TNumber;
      req "description" TString;
      req "tokenSymbol" TString;
      req "imageUrl" TString;
      opt "stats" TObject;
      opt "traits" (TArray TObject);
      opt "externalLink" TString;
      opt "wikiLink" TString ]
    None.

Definition NumericalTraitStats : decl :=
  DInterface []
    [ req "min" TNumber;
      req "max" TNumber ]
    None.

Definition StringTraitStats : decl :=
  DInterface []
    []
    (Some TNumber).

Definition OpenSeaCollectionStats : decl :=
  DInterface []
    [ req "one_minute_volume" TNumber;
      req "one_minute_change" TNumber;
      req "one_minute_sales" TNumber;
      req "one_minute_sales_change" TNumber;
      req "one_minute_average_price" TNumber;
      req "one_minute_difference" TNumber;
      req "five_minute_volume" TNumber;
      req "five_minute_change" TNumber;
      req "five_minute_sales" TNumber;
      req "five_minute_sales_change" TNumber;
      req "five_minute_average_price" TNumber;
      req "five_minute_difference" TNumber;
      req "fifteen_minute_volume" TNumber;
      req "fifteen_minute_change" TNumber;
      req "fifteen_minute_sales" TNumber;
      req "fifteen_minute_sales_change" TNumber;
      req "fifteen_minute_average_price" TNumber;
      req "fifteen_minute_difference" TNumber;
      req "thirty_minute_volume" TNumber;
      req "thirty_minute_change" TNumber;
      req "thirty_minute_sales" TNumber;
      req "thirty_minute_sales_change" TNumber;
      req "thirty_minute_average_price" TNumber;
      req "thirty_minute_difference" TNumber;
      req "one_hour_volume" TNumber;
      req "one_hour_change" TNumber;
      req "one_hour_sales" TNumber;
      req "one_hour_sales_change" TNumber;
      req "one_hour_average_price" TNumber;
      req "one_hour_difference" TNumber;
      req "six_hour_volume" TNumber;
      req "six_hour_change" TNumber;
      req "six_hour_sales" TNumber;
      req "six_hour_sales_change" TNumber;
      req "six_hour_average_price" TNumber;
      req "six_hour_difference" TNumber;
      req "one_day_volume" TNumber;
      req "one_day_change" TNumber;
      req "one_day_sales" TNumber;
      req "one_day_sales_change" TNumber;
      req "one_day_average_price" TNumber;
      req "one_day_difference" TNumber;
      req "seven_day_volume" TNumber;
      req "seven_day_change" TNumber;
      req "seven_day_sales" TNumber;
      req "seven_day_average_price" TNumber;
      req "seven_day_difference" TNumber;
      req "thirty_day_volume" TNumber;
      req "thirty_day_change" TNumber;
      req "thirty_day_sales" TNumber;
      req "thirty_day_average_price" TNumber;
      req "thirty_day_difference" TNumber;
      req "total_volume" TNumber;
      req "total_sales" TNumber;
      req "total_supply" TNumber;
      req "count" TNumber;
      req "num_owners" TNumber;
      req "average_price" TNumber;
      req "num_reports" TNumber;
      req "market_cap" TNumber;
      req "floor_price" TNumber ]
    None.

Definition OpenSeaCollection : decl :=
  DInterface [Ref "OpenSeaFees"]
    [ req "name" TString;
      req "slug" TString;
      req "editors" (TArray TString);
      req "hidden" TBoolean;
      req "featured" TBoolean;
      req "createdDate" TDate;
      req "description" TString;
      req "imageUrl" TString;
      req "largeImageUrl" TString;
      req "featuredImageUrl" TString;
      req "stats" (Ref "OpenSeaCollectionStats");
      req "displayData" TObject;
      req "paymentTokens" (TArray (Ref "OpenSeaFungibleToken"));
      opt "payoutAddress" TString;
      req "traitStats" (Ref "OpenSeaTraitStats");
      opt "externalLink" TString;
      opt "wikiLink" TString;
      req "fees" (Ref "Fees") ]
    None.

Definition OpenSeaTraitStats : decl :=
  DInterface []
    []
    (Some (TUnion (Ref "NumericalTraitStats") (Ref "StringTraitStats"))).

Definition OpenSeaAsset : decl :=
  DInterface [Ref "Asset"]
    [ req "assetContract" (Ref "OpenSeaAssetContract");
      req "collection" (Ref "OpenSeaCollection");
      req "name" TString;
      req "description" TString;
      req "owner" (Ref "OpenSeaAccount");
      req "orders" (TUnion (TArray (Ref "Order")) TNull);
      req "buyOrders" (TUnion (TArray (Ref "Order")) TNull);
      req "sellOrders" (TUnion (TArray (Ref "Order")) TNull);
      req "isPresale" TBoolean;
      req "imageUrl" TString;
      req "imagePreviewUrl" TString;
      req "imageUrlOriginal" TString;
      req "imageUrlThumbnail" TString;
      req "openseaLink" TString;
      req "externalLink" TString;
      req "traits" (TArray TObject);
      req "numSales" TNumber;
      req "lastSale" (TUnion (Ref "AssetEvent") TNull);
      req "backgroundColor" (TUnion TString TNull) ]
    None.

Definition AssetEvent : decl :=
  DInterface []
    [ req "eventType" (Ref "AssetEventType");
      req "eventTimestamp" TDate;
      req "auctionType" (Ref "AuctionType");
      req "totalPrice" TString;
      req "transaction" (TUnion (Ref "Transaction") TNull);
      req "paymentToken" (TUnion (Ref "OpenSeaFungibleToken") TNull) ]
    None.

Definition AuctionType : decl :=
  DEnumStr
    [ ("Dutch", "dutch");
      ("English", "english");
      ("MinPrice", "min_price") ].

Definition AssetEventType : decl :=
  DEnumStr
    [ ("AuctionCreated", "created");
      ("AuctionSuccessful", "successful");
      ("AuctionCancelled", "cancelled");
      ("OfferEntered", "offer_entered");
      ("BidEntered", "bid_entered");
      ("BidWithdraw", "bid_withdraw");
      ("AssetTransfer", "transfer");
      ("AssetApprove", "approve");
      ("CompositionCreated", "composition_created");
      ("Custom", "custom");
      ("Payout", "payout") ].

Definition Transaction : decl :=
  DInterface []
    [ req "fromAccount" (Ref "OpenSeaAccount");
      req "toAccount" (Ref "OpenSeaAccount");
      req "createdDate" TDate;
      req "modifiedDate" TDate;
      req "transactionHash" TString;
      req "transactionIndex" TString;
      req "blockNumber" TString;
      req "blockHash" TString;
      req "timestamp" TDate ]
    None.

Definition OpenSeaFungibleToken : decl :=
  DInterface []
    [ req "name" TString;
      req "symbol" TString;
      req "decimals" TNumber;
      req "address" TString;
      opt "imageUrl" TString;
      opt "ethPrice" TString;
      opt "usdPrice" TString ]
    None.

Definition OpenSeaAssetBundle : decl :=
  DInterface []
    [ req "maker" (Ref "OpenSeaAccount");
      req "assets" (TArray (Ref "OpenSeaAsset"));
      req "name" TString;
      req "slug" TString;
      req "permalink" TString;
      req "sellOrders" (TUnion (TArray (Ref "Order")) TNull);
      opt "assetContract" (Ref "OpenSeaAssetContract");
      opt "description" TString;
      opt "externalLink" TString ]
    None.

Definition OpenSeaAssetBundleJSON : decl :=
  DInterface []
    [ req "assets" (TArray (Ref "OpenSeaAsset"));
      req "name" TString;
      opt "description" TString;
      opt "external_link" TString;
      opt "maker" (Ref "OpenSeaAccount") ]
    None.

Definition OpenSeaAssetBundleQuery : decl :=
  DInterface [TPartial (Ref "OpenSeaAssetBundleJSON")]
    [ opt "asset_contract_address" TString;
      opt "token_ids" (TArray (TUnion TNumber TString));
      opt "on_sale" TBoolean;
      opt "owner" TString;
      opt "offset" TNumber;
      opt "limit" TNumber ]
    None.

Definition OpenSeaFees : decl :=
  DInterface []
    [ req "openseaSellerFeeBasisPoints" TNumber;
      req "openseaBuyerFeeBasisPoints" TNumber;
      req "devSellerFeeBasisPoints" TNumber;
      req "devBuyerFeeBasisPoints" TNumber ]
    None.

Definition ComputedFees : decl :=
  DInterface [Ref "OpenSeaFees"]
    [ req "totalBuyerFeeBasisPoints" TNumber;
      req "totalSellerFeeBasisPoints" TNumber ]
    None.

Definition ExchangeMetadataForAsset : decl :=
  DInterface []
    [ req "asset" (Ref "WyvernAsset");
      req "schema" (Ref "WyvernSchemaName");
      opt "referrerAddress" TString ]
    None.

Definition ExchangeMetadataForBundle : decl :=
  DInterface []
    [ req "bundle" (Ref "WyvernBundle");
      opt "referrerAddress" TString ]
    None.

Definition ExchangeMetadata : decl :=
  DAlias []
    (TUnion (Ref "ExchangeMetadataForAsset") (Ref "ExchangeMetadataForBundle")).

Definition UnhashedOrder : decl :=
  DInterface []
    [ req "exchange" TString;
      req "maker" TString;
      req "taker" TString;
      req "makerRelayerFee" TBigNumber;
      req "takerRelayerFee" TBigNumber;
      req "makerProtocolFee" TBigNumber;
      req "takerProtocolFee" TBigNumber;
      req "feeRecipient" TString;
      req "target" TString;
      req "calldata" TString;
      req "replacementPattern" TString;
      req "staticTarget" TString;
      req "staticExtradata" TString;
      req "paymentToken" TString;
      req "basePrice" TBigNumber;
      req "extra" TBigNumber;
      req "listingTime" TBigNumber;
      req "expirationTime" TBigNumber;
      req "salt" TBigNumber;
      req "feeMethod" (Ref "FeeMethod");
      req "side" (Ref "OrderSide");
      req "saleKind" (Ref "SaleKind");
      req "howToCall" (Ref "HowToCall");
      req "quantity" TBigNumber;
      req "makerReferrerFee" TBigNumber;
      req "waitingForBestCounterOrder" TBoolean;
      opt "englishAuctionReservePrice" TBigNumber;
      req "metadata" (Ref "ExchangeMetadata") ]
    None.

Definition HowToCall : decl :=
  DEnumNum
    [ ("Call", 0%float);
      ("DelegateCall", 1%float);
      ("StaticCall", 2%float);
      ("Create", 3%float) ].

Definition UnsignedOrder : decl :=
  DInterface [Ref "UnhashedOrder"]
    [ opt "hash" TString ]
    None.

Definition ECSignature : decl :=
  DInterface []
    [ req "v" TNumber;
      req "r" TString;
      req "s" TString ]
    None.

Definition Order : decl :=
  DInterface [Ref "UnsignedOrder"; TPartial (Ref "ECSignature")]
    [ opt "createdTime" TBigNumber;
      opt "currentPrice" TBigNumber;
      opt "currentBounty" TBigNumber;
      opt "makerAccount" (Ref "OpenSeaAccount");
      opt "takerAccount" (Ref "OpenSeaAccount");
      opt "paymentTokenContract" (Ref "OpenSeaFungibleToken");
      opt "feeRecipientAccount" (Ref "OpenSeaAccount");
      opt "cancelledOrFinalized" TBoolean;
      opt "markedInvalid" TBoolean;
      opt "asset" (Ref "OpenSeaAsset");
      opt "assetBundle" (Ref "OpenSeaAssetBundle");
      opt "nonce" TNumber ]
    None.

Definition OrderJSON : decl :=
  DInterface [TPartial (Ref "ECSignature")]
    [ req "exchange" TString;
      req "maker" TString;
      req "taker" TString;
      req "makerRelayerFee" TString;
      req "takerRelayerFee" TString;
      req "makerProtocolFee" TString;
      req "takerProtocolFee" TString;
      req "feeRecipient" TString;
      req "feeMethod" TNumber;
      req "side" TNumber;
      req "saleKind" TNumber;
      req "target" TString;
      req "howToCall" TNumber;
      req "calldata" TString;
      req "replacementPattern" TString;
      req "staticTarget" TString;
      req "staticExtradata" TString;
      req "paymentToken" TString;
      req "basePrice" TString;
      req "extra" TString;
      req "listingTime" (TUnion TNumber TString);
      req "expirationTime" (TUnion TNumber TString);
      req "salt" TString;
      req "makerReferrerFee" TString;
      req "quantity" TString;
      req "englishAuctionReservePrice" (TUnion TString TUndefined);
      opt "createdTime" (TUnion TNumber TString);
      req "metadata" (Ref "ExchangeMetadata");
      opt "nonce" TNumber ]
    None.

Definition RawWyvernOrderJSON : decl :=
  DAlias []
    (TOmit (Ref "OrderJSON")
       [ "makerReferrerFee"; "quantity"; "englishAuctionReservePrice";
         "createdTime"; "metadata"; "hash"; "v"; "r"; "s" ]).

Definition OrderQuery : decl :=
  DInterface [TPartial (Ref "OrderJSON")]
    [ opt "owner" TString;
      opt "sale_kind" (Ref "SaleKind");
      opt "side" (Ref "OrderSide");
      opt "asset_contract_address" TString;
      opt "payment_token_address" TString;
      opt "is_english" TBoolean;
      opt "is_expired" TBoolean;
      opt "bundled" TBoolean;
      opt "include_invalid" TBoolean;
      opt "token_id" (TUnion TNumber TString);
      opt "token_ids" (TArray (TUnion TNumber TString));
      opt "listed_after" (TUnion TNumber TString);
      opt "listed_before" (TUnion TNumber TString);
      opt "limit" TNumber;
      opt "offset" TNumber ]
    None.

Definition OpenSeaAssetQuery : decl :=
  DInterface []
    [ opt "owner" TString;
      opt "asset_contract_address" TString;
      opt "token_ids" (TArray (TUnion TNumber TString));
      opt "order_by" TString;
      opt "order_direction" TString;
      opt "limit" TNumber;
      opt "offset" TNumber;
      opt "cursor" TString ]
    None.

Definition OpenSeaFungibleTokenQuery : decl :=
  DInterface [TPartial (Ref "OpenSeaFungibleToken")]
    [ opt "limit" TNumber;
      opt "offset" TNumber;
      opt "symbol" TString ]
    None.

Definition OrderbookResponse : decl :=
  DInterface []
    [ req "orders" (TArray (Ref "OrderJSON"));
      req "count" TNumber ]
    None.

Definition Web3Callback : decl :=
  DAlias ["T"]
    (TFun [("err", (TUnion TError TNull)); ("result", (TVar "T"))] TVoid).

Definition TxnCallback : decl :=
  DAlias []
    (TFun [("result", TBoolean)] TVoid).

Definition PartialReadonlyContractAbi : decl :=
  DAlias []
    (TArray (TImported "AbiItem")).

Definition AnnotatedFunctionABI : decl :=
  DInterface []
    [ req "type" (Ref "AbiType");
      req "name" TString;
      req "target" TString;
      req "inputs" (TArray (Ref "AnnotatedFunctionInput"));
      req "outputs" (TArray (Ref "AnnotatedFunctionOutput"));
      req "constant" TBoolean;
      req "stateMutability" (Ref "StateMutability");
      req "payable" TBoolean ]
    None.

Definition AbiType : decl :=
  DEnumStr
    [ ("Function", "function");
      ("Constructor", "constructor");
      ("Event", "event");
      ("Fallback", "fallback") ].

Definition AnnotatedFunctionInput : decl :=
  DInterface []
    [ req "name" TString;
      req "type" TString;
      req "kind" (Ref "FunctionInputKind");
      opt "value" TAny ]
    None.

Definition AnnotatedFunctionOutput : decl :=
  DInterface []
    [ req "name" TString;
      req "type" TString;
      req "kind" (Ref "FunctionOutputKind") ]
    None.

Definition FunctionInputKind : decl :=
  DEnumStr
    [ ("Replaceable", "replaceable");
      ("Asset", "asset");
      ("Owner", "owner");
      ("Index", "index");
      ("Count", "count");
      ("Data", "data") ].

Definition FunctionOutputKind : decl :=
  DEnumStr
    [ ("Owner", "owner");
      ("Asset", "asset");
      ("Count", "count");
      ("Other", "other") ].

Definition StateMutability : decl :=
  DEnumStr
    [ ("Pure", "pure");
      ("View", "view");
      ("Payable", "payable");
      ("Nonpayable", "nonpayable") ].

Definition SolidityTypes : decl :=
  DEnumStr
    [ ("Address", "address");
      ("Uint256", "uint256");
      ("Uint8", "uint8");
      ("Uint", "uint");
      ("Bytes", "bytes");
      ("String", "string") ].

End Decl.

Definition declarations : list (string * decl) :=
  [ ("EventType", Decl.EventType);
    ("EventData", Decl.EventData);
    ("OpenSeaAPIConfig", Decl.OpenSeaAPIConfig);
    ("Network", Decl.Network);
    ("WyvernConfig", Decl.WyvernConfig);
    ("OrderSide", Decl.OrderSide);
    ("FeeMethod", Decl.FeeMethod);
    ("SaleKind", Decl.SaleKind);
    ("AssetContractType", Decl.AssetContractType);
    ("WyvernSchemaName", Decl.WyvernSchemaName);
    ("TokenStandardVersion", Decl.TokenStandardVersion);
    ("Fees", Decl.Fees);
    ("WyvernNFTAsset", Decl.WyvernNFTAsset);
    ("WyvernFTAsset", Decl.WyvernFTAsset);
    ("WyvernAsset", Decl.WyvernAsset);
    ("WyvernBundle", Decl.WyvernBundle);
    ("WyvernAtomicMatchParameters", Decl.WyvernAtomicMatchParameters);
    ("OpenSeaAccount", Decl.OpenSeaAccount);
    ("OpenSeaUser", Decl.OpenSeaUser);
    ("Asset", Decl.Asset);
    ("OpenSeaAssetContract", Decl.OpenSeaAssetContract);
    ("NumericalTraitStats", Decl.NumericalTraitStats);
    ("StringTraitStats", Decl.StringTraitStats);
    ("OpenSeaCollectionStats", Decl.OpenSeaCollectionStats);
    ("OpenSeaCollection", Decl.OpenSeaCollection);
    ("OpenSeaTraitStats", Decl.OpenSeaTraitStats);
    ("OpenSeaAsset", Decl.OpenSeaAsset);
    ("AssetEvent", Decl.AssetEvent);
    ("AuctionType", Decl.AuctionType);
    ("AssetEventType", Decl.AssetEventType);
    ("Transaction", Decl.Transaction);
    ("OpenSeaFungibleToken", Decl.OpenSeaFungibleToken);
    ("OpenSeaAssetBundle", Decl.OpenSeaAssetBundle);
    ("OpenSeaAssetBundleJSON", Decl.OpenSeaAssetBundleJSON);
    ("OpenSeaAssetBundleQuery", Decl.OpenSeaAssetBundleQuery);
    ("OpenSeaFees", Decl.OpenSeaFees);
    ("ComputedFees", Decl.ComputedFees);
    ("ExchangeMetadataForAsset", Decl.ExchangeMetadataForAsset);
    ("ExchangeMetadataForBundle", Decl.ExchangeMetadataForBundle);
    ("ExchangeMetadata", Decl.ExchangeMetadata);
    ("UnhashedOrder", Decl.UnhashedOrder);
    ("HowToCall", Decl.HowToCall);
    ("UnsignedOrder", Decl.UnsignedOrder);
    ("ECSignature", Decl.ECSignature);
    ("Order", Decl.Order);
    ("OrderJSON", Decl.OrderJSON);
    ("RawWyvernOrderJSON", Decl.RawWyvernOrderJSON);
    ("OrderQuery", Decl.OrderQuery);
    ("OpenSeaAssetQuery", Decl.OpenSeaAssetQuery);
    ("OpenSeaFungibleTokenQuery", Decl.OpenSeaFungibleTokenQuery);
    ("OrderbookResponse", Decl.OrderbookResponse);
    ("Web3Callback", Decl.Web3Callback);
    ("TxnCallback", Decl.TxnCallback);
    ("PartialReadonlyContractAbi", Decl.PartialReadonlyContractAbi);
    ("AnnotatedFunctionABI", Decl.AnnotatedFunctionABI);
    ("AbiType", Decl.AbiType);
    ("AnnotatedFunctionInput", Decl.AnnotatedFunctionInput);
    ("AnnotatedFunctionOutput", Decl.AnnotatedFunctionOutput);
    ("FunctionInputKind", Decl.FunctionInputKind);
    ("FunctionOutputKind", Decl.FunctionOutputKind);
    ("StateMutability", Decl.StateMutability);
    ("SolidityTypes", Decl.SolidityTypes) ].

(* ================================================================= *)
(** ** Property lists: [extends], [Partial], [Omit] *)

Definition lookup {A : Type} (k : string) (l : list (string * A)) : option A :=
  match find (fun p => String.eqb k (fst p)) l with
  | Some p => Some (snd p)
  | None => None
  end.

Definition mem (k : string) (l : list string) : bool :=
  existsb (String.eqb k) l.

Definition names (fs : list field) : list string := map fname fs.

(** [Partial<T>] makes every property optional. *)
Definition partial (fs : list field) : list field :=
  map (fun f => mkField (fname f) true (ftype f)) fs.

(** [Omit<T, K>] drops the properties named in [K] and keeps the others as
    they are (name, optionality, type). *)
Definition omit (ks : list string) (fs : list field) : list field :=
  filter (fun f => negb (mem (fname f) ks)) fs.

(** An interface's own signature of a name replaces the inherited one. *)
Definition inherit (inherited own : list field) : list field :=
  omit (names own) inherited ++ own.

Fixpoint collect (l : list (option (list field))) : option (list field) :=
  match l with
  | [] => Some []
  | None :: _ => None
  | Some fs :: rest =>
      match collect rest with
      | Some gs => Some (fs ++ gs)
      | None => None
      end
  end.

Fixpoint subst (s : list (string * ty)) (t : ty) : ty :=
  match t with
  | TVar x => match lookup x s with Some u => u | None => TVar x end
  | TRef n args => TRef n (map (subst s) args)
  | TArray e => TArray (subst s e)
  | TUnion a b => TUnion (subst s a) (subst s b)
  | TTuple ts => TTuple (map (subst s) ts)
  | TMap k v => TMap (subst s k) (subst s v)
  | TPartial u => TPartial (subst s u)
  | TOmit u ks => TOmit (subst s u) ks
  | TFun ps r => TFun (map (fun p => (fst p, subst s (snd p))) ps) (subst s r)
  | _ => t
  end.

(** The property list of an object type, [None] for a type that is not an
    object type with a known property list (a primitive, a union, an enum).
    The fuel bounds the chain of [extends] and aliases followed. *)
Fixpoint properties_upto (n : nat) (t : ty) : option (list field) :=
  match n with
  | O => None
  | S n =>
      match t with
      | TRef name args =>
          match lookup name declarations with
          | Some (DInterface exts own _) =>
              match collect (map (properties_upto n) exts) with
              | Some inherited => Some (inherit inherited own)
              | None => None
              end
          | Some (DAlias ps body) =>
              properties_upto n (subst (combine ps args) body)
          | _ => None
          end
      | TPartial u => option_map partial (properties_upto n u)
      | TOmit u ks => option_map (omit ks) (properties_upto n u)
      | _ => None
      end
  end.

(** No chain of [extends] and aliases is longer than the number of
    declarations. *)
Definition properties (t : ty) : option (list field) :=
  properties_upto (S (length declarations)) t.

(* ================================================================= *)
(** ** JavaScript values and conformance to a type *)

(** [number] is an IEEE 754 double.  A [BigNumber] instance is kept by the
    integer it holds: the order fields typed [BigNumber] are wei amounts,
    timestamps in seconds and salts. *)
Definition number : Set := float.


(** An object is the list of its properties; [lookup] reads the first
    binding of a key. *)
Inductive value : Type :=
| VUndefined
| VNull
| VBool (b : bool)
| VNum (x : number)
| VStr (s : string)
| VBig (z : Z)
| VDate (ms : Z)
| VError (message : string)
| VArr (items : list value)
| VObj (props : list (string * value))
| VMap (entries : list (value * value))
| VFun.

Definition is_undefined (v : value) : bool :=
  match v with VUndefined => true | _ => false end.

(** A property signature against an object: a required property must be
    there and conform; an optional one may be missing or [undefined]. *)
Definition field_ok (chk : value -> ty -> bool)
    (o : list (string * value)) (f : field) : bool :=
  match lookup (fname f) o with
  | None => fopt f
  | Some v => chk v (ftype f) || (fopt f && is_undefined v)
  end.

Definition index_ok (chk : value -> ty -> bool)
    (o : list (string * value)) (index : option ty) : bool :=
  match index with
  | None => true
  | Some t => forallb (fun p => chk (snd p) t) o
  end.

Definition object_ok (chk : value -> ty -> bool) (v : value) (t : ty) : bool :=
  match v, properties t with
  | VObj o, Some fs => forallb (field_ok chk o) fs
  | _, _ => false
  end.

(** One layer of the conformance check; [chk] checks the parts.  Null and
    undefined belong only to the types that name them (strict null
    checks).  A string enum type holds the values of its members; a
    numeric enum type holds every number, since TypeScript assigns any
    number to a numeric enum.  An interface
    holds the objects that satisfy each of its property signatures and,
    if it has one, its index signature; properties it does not declare
    are allowed.  A union holds what either side holds; a tuple holds the
    arrays of its length whose items conform in position. *)
Definition conforms (chk : value -> ty -> bool) (v : value) (t : ty) : bool :=
  match t with
  | TAny | TUnknown => true
  | TString => match v with VStr _ => true | _ => false end
  | TNumber => match v with VNum _ => true | _ => false end
  | TBoolean => match v with VBool _ => true | _ => false end
  | TNull => match v with VNull => true | _ => false end
  | TUndefined | TVoid => is_undefined v
  | TObject =>
      match v with
      | VBig _ | VDate _ | VError _ | VArr _ | VObj _ | VMap _ | VFun => true
      | _ => false
      end
  | TBigNumber => match v with VBig _ => true | _ => false end
  | TDate => match v with VDate _ => true | _ => false end
  | TError => match v with VError _ => true | _ => false end
  | TImported _ => match v with VObj _ => true | _ => false end
  | TVar _ => false
  | TArray e =>
      match v with
      | VArr items => forallb (fun x => chk x e) items
      | _ => false
      end
  | TUnion a b => chk v a || chk v b
  | TTuple slots =>
      match v with
      | VArr items =>
          Nat.eqb (length items) (length slots)
          && forallb (fun p => chk (fst p) (snd p)) (combine items slots)
      | _ => false
      end
  | TMap k e =>
      match v with
      | VMap entries => forallb (fun p => chk (fst p) k && chk (snd p) e) entries
      | _ => false
      end
  | TFun _ _ => match v with VFun => true | _ => false end
  | TPartial _ | TOmit _ _ => object_ok chk v t
  | TRef name args =>
      match lookup name declarations with
      | Some (DEnumStr members) =>
          match v with
          | VStr s => existsb (fun m => String.eqb s (snd m)) members
          | _ => false
          end
      | Some (DEnumNum _) =>
          match v with
          | VNum _ => true
          | _ => false
          end
      | Some (DInterface _ _ index) =>
          object_ok chk v t
          && match v with VObj o => index_ok chk o index | _ => false end
      | Some (DAlias ps body) => chk v (subst (combine ps args) body)
      | None => false
      end
  end.

(** Conformance to depth [n]. *)
Fixpoint has_type (n : nat) (v : value) (t : ty) : bool :=
  match n with
  | O => false
  | S n => conforms (has_type n) v t
  end.

(** A value is of a type when the check succeeds at some depth (and then
    at every greater one, [has_type_mono]). *)
Definition well_typed (v : value) (t : ty) : Prop :=
  exists n, has_type n v t = true.


Definition own_of (d : decl) : list field :=
  match d with
  | DInterface _ own _ => own
  | _ => []
  end.

Definition present (k : string) (o : list (string * value)) : bool :=
  match lookup k o with
  | Some v => negb (is_undefined v)
  | None => false
  end.

(* ================================================================= *)
(** ** Sample values *)

Definition example_asset : value :=
  VObj [ ("id", VStr "1");
         ("address", VStr "0x06012c8cf97bead5deae237070f9587f8e7a266d") ].

Definition example_metadata : value :=
  VObj [ ("asset", example_asset); ("schema", VStr "ERC721") ].

(** A buy order on the wire: [side] and the other discriminants are
    numbers, [listingTime] is a number, [expirationTime] a string. *)
Definition example_order_json_fields : list (string * value) :=
  [ ("exchange", VStr "0x7be8076f4ea4a4ad08075c2508e481d6c946d12b");
    ("maker", VStr "0x0000000000000000000000000000000000000001");
    ("taker", VStr "0x0000000000000000000000000000000000000000");
    ("makerRelayerFee", VStr "250");
    ("takerRelayerFee", VStr "0");
    ("makerProtocolFee", VStr "0");
    ("takerProtocolFee", VStr "0");
    ("feeRecipient", VStr "0x5b3256965e7c3cf26e11fcaf296dfc8807c01073");
    ("feeMethod", VNum 1%float);
    ("side", VNum 0%float);
    ("saleKind", VNum 0%float);
    ("target", VStr "0x06012c8cf97bead5deae237070f9587f8e7a266d");
    ("howToCall", VNum 0%float);
    ("calldata", VStr "0x23b872dd");
    ("replacementPattern", VStr "0x00000000");
    ("staticTarget", VStr "0x0000000000000000000000000000000000000000");
    ("staticExtradata", VStr "0x");
    ("paymentToken", VStr "0xc02aaa39b223fe8d0a0e5c4f27ead9083c756cc2");
    ("basePrice", VStr "1000000000000000000");
    ("extra", VStr "0");
    ("listingTime", VNum 1650000000%float);
    ("expirationTime", VStr "1650086400");
    ("salt", VStr "81142896206704438309419675102839567443");
    ("makerReferrerFee", VStr "0");
    ("quantity", VStr "1");
    ("englishAuctionReservePrice", VUndefined);
    ("metadata", example_metadata) ].

Definition example_order_json : value := VObj example_order_json_fields.

(** The signature a type gives the property [k], if any. *)
Definition signature_of (t : ty) (k : string) : option field :=
  match properties t with
  | Some fs => find (fun f => String.eqb k (fname f)) fs
  | None => None
  end.

(** The keys [RawWyvernOrderJSON] omits, read off its declaration. *)
Definition omitted_keys : list string :=
  match Decl.RawWyvernOrderJSON with
  | DAlias _ (TOmit _ ks) => ks
  | _ => []
  end.

(** The numeric order fields by the groups the specification names. *)
Definition amount_fields : list string :=
  [ "makerRelayerFee"; "takerRelayerFee"; "makerProtocolFee";
    "takerProtocolFee"; "makerReferrerFee"; "basePrice"; "extra"; "salt";
    "quantity" ].

Definition timestamp_fields : list string :=
  [ "listingTime"; "expirationTime" ].

Definition discriminant_fields : list string :=
  [ "feeMethod"; "side"; "saleKind"; "howToCall" ].

Definition numeric_order_fields : list string :=
  amount_fields ++ timestamp_fields ++ discriminant_fields.

Definition is_string (v : value) : Prop := exists s, v = VStr s.
Definition is_number (v : value) : Prop := exists x, v = VNum x.

(** An order as the SDK holds it, before hashing: no [hash], no signature,
    no [englishAuctionReservePrice]; the metadata is left to choose. *)
Definition unhashed_order_with (metadata : value) : list (string * value) :=
  [ ("exchange", VStr "0x7be8076f4ea4a4ad08075c2508e481d6c946d12b");
    ("maker", VStr "0x0000000000000000000000000000000000000001");
    ("taker", VStr "0x0000000000000000000000000000000000000000");
    ("makerRelayerFee", VBig 250);
    ("takerRelayerFee", VBig 0);
    ("makerProtocolFee", VBig 0);
    ("takerProtocolFee", VBig 0);
    ("feeRecipient", VStr "0x5b3256965e7c3cf26e11fcaf296dfc8807c01073");
    ("target", VStr "0x06012c8cf97bead5deae237070f9587f8e7a266d");
    ("calldata", VStr "0x23b872dd");
    ("replacementPattern", VStr "0x00000000");
    ("staticTarget", VStr "0x0000000000000000000000000000000000000000");
    ("staticExtradata", VStr "0x");
    ("paymentToken", VStr "0xc02aaa39b223fe8d0a0e5c4f27ead9083c756cc2");
    ("basePrice", VBig 1000000000000000000);
    ("extra", VBig 0);
    ("listingTime", VBig 1650000000);
    ("expirationTime", VBig 1650086400);
    ("salt", VBig 81142896206704438309419675102839567443);
    ("feeMethod", VNum 1%float);
    ("side", VNum 0%float);
    ("saleKind", VNum 0%float);
    ("howToCall", VNum 0%float);
    ("quantity", VBig 1);
    ("makerReferrerFee", VBig 0);
    ("waitingForBestCounterOrder", VBool false);
    ("metadata", metadata) ].

Definition example_unhashed_order_fields : list (string * value) :=
  unhashed_order_with example_metadata.

Definition example_unhashed_order : value :=
  VObj example_unhashed_order_fields.

(* ================================================================= *)
(** ** [WyvernAtomicMatchParameters] *)

Definition slots_of (d : decl) : list ty :=
  match d with
  | DAlias _ (TTuple slots) => slots
  | _ => []
  end.

(** The layout in the words of the specification: an address array, a uint
    array, a mixed array, then five string fields, then a final mixed array
    and an address array. *)
Definition layout_with_five_strings : list ty :=
  [ TArray TString; TArray TBigNumber; TArray (TUnion TNumber TBigNumber) ]
  ++ repeat TString 5
  ++ [ TArray (TUnion TNumber TBigNumber); TArray TString ].

Definition example_match_parameters : list value :=
  [ VArr [ VStr "0x7be8076f4ea4a4ad08075c2508e481d6c946d12b" ];
    VArr [ VBig 250; VBig 1000000000000000000 ];
    VArr [ VNum 1%float; VBig 0 ];
    VStr "0x23b872dd";
    VStr "0x23b872de";
    VStr "0x00000000";
    VStr "0xffffffff";
    VStr "0x";
    VStr "0x";
    VArr [ VNum 27%float; VNum 28%float ];
    VArr [ VStr "0x01"; VStr "0x02" ] ].

(** The same arguments with slots 3 and 4 exchanged. *)
Definition permuted_match_parameters : list value :=
  [ VArr [ VStr "0x7be8076f4ea4a4ad08075c2508e481d6c946d12b" ];
    VArr [ VBig 250; VBig 1000000000000000000 ];
    VStr "0x23b872dd";
    VArr [ VNum 1%float; VBig 0 ];
    VStr "0x23b872de";
    VStr "0x00000000";
    VStr "0xffffffff";
    VStr "0x";
    VStr "0x";
    VArr [ VNum 27%float; VNum 28%float ];
    VArr [ VStr "0x01"; VStr "0x02" ] ].

(* ================================================================= *)
(** ** Orders: signature and metadata *)

(** The signature properties an order value carries, chosen one by one. *)
Definition signature_fields (with_v with_r with_s : bool)
    : list (string * value) :=
  (if with_v then [ ("v", VNum 27%float) ] else [])
  ++ (if with_r then [ ("r", VStr "0x4f8a") ] else [])
  ++ (if with_s then [ ("s", VStr "0x21c3") ] else []).

Definition example_order (with_v with_r with_s : bool) : value :=
  VObj (example_unhashed_order_fields
        ++ [ ("hash", VStr "0x9e1f") ]
        ++ signature_fields with_v with_r with_s).

Definition example_bundle : value :=
  VObj [ ("assets", VArr [ example_asset ]);
         ("schemas", VArr [ VStr "ERC721" ]) ].

(** Metadata that carries [asset], [schema] and [bundle] at once. *)
Definition asset_and_bundle_metadata : value :=
  VObj [ ("asset", example_asset);
         ("schema", VStr "ERC721");
         ("bundle", example_bundle) ].

Definition order_with_both_fields : list (string * value) :=
  unhashed_order_with asset_and_bundle_metadata.

Definition order_with_both : value := VObj order_with_both_fields.

(* ================================================================= *)
(** ** Fees *)

(** The integer a [number] holds, if it holds one. *)
Definition number_to_Z (x : number) : option Z :=
  match Prim2SF x with
  | S754_zero _ => Some 0%Z
  | S754_finite negative m e =>
      let z := if negative then Z.neg m else Z.pos m in
      if (0 <=? e)%Z then Some (z * 2 ^ e)%Z
      else if (Z.pos m mod 2 ^ (- e) =? 0)%Z then Some (z / 2 ^ (- e))%Z
      else None
  | _ => None
  end.

Definition fee_names : list string :=
  [ "openseaSellerFeeBasisPoints"; "openseaBuyerFeeBasisPoints";
    "devSellerFeeBasisPoints"; "devBuyerFeeBasisPoints";
    "totalBuyerFeeBasisPoints"; "totalSellerFeeBasisPoints" ].

Definition basis_points (k : string) (o : list (string * value)) : option Z :=
  match lookup k o with
  | Some (VNum x) => number_to_Z x
  | _ => None
  end.

Definition in_basis_point_range (z : option Z) : bool :=
  match z with
  | Some z => ((0 <=? z) && (z <=? 10000))%Z
  | None => false
  end.

Definition is_sum_of (total a b : option Z) : bool :=
  match total, a, b with
  | Some t, Some x, Some y => (t =? x + y)%Z
  | _, _, _ => false
  end.

(** The invariant of the specification: every basis-point field an integer
    in [0, 10000], each total the sum of its opensea and dev parts. *)
Definition fees_invariant (o : list (string * value)) : bool :=
  forallb (fun k => in_basis_point_range (basis_points k o)) fee_names
  && is_sum_of (basis_points "totalBuyerFeeBasisPoints" o)
               (basis_points "openseaBuyerFeeBasisPoints" o)
               (basis_points "devBuyerFeeBasisPoints" o)
  && is_sum_of (basis_points "totalSellerFeeBasisPoints" o)
               (basis_points "openseaSellerFeeBasisPoints" o)
               (basis_points "devSellerFeeBasisPoints" o).

Definition fees_with (total_buyer total_seller : number)
    : list (string * value) :=
  [ ("openseaSellerFeeBasisPoints", VNum 250%float);
    ("openseaBuyerFeeBasisPoints", VNum 0%float);
    ("devSellerFeeBasisPoints", VNum 500%float);
    ("devBuyerFeeBasisPoints", VNum 0%float);
    ("totalBuyerFeeBasisPoints", VNum total_buyer);
    ("totalSellerFeeBasisPoints", VNum total_seller) ].

(** Seller parts 250 and 500 with the seller total 750. *)
Definition example_fees : list (string * value) := fees_with 0%float 750%float.

(** The same parts with a seller total of 20000: neither the sum of the
    parts nor within [0, 10000]. *)
Definition unbalanced_fees : list (string * value) :=
  fees_with 0%float 20000%float.

(** The [number] that holds a small non-negative integer. *)
Definition number_of_Z (z : Z) : number := PrimFloat.of_uint63 (Uint63.of_Z z).

(** Whether each of the [n] integers from [z] on is read back from its
    [number] unchanged. *)
Fixpoint exact_upto (n : nat) (z : Z) : bool :=
  match n with
  | O => true
  | S n' =>
      match number_to_Z (number_of_Z z) with
      | Some y => Z.eqb y z
      | None => false
      end && exact_upto n' (z + 1)
  end.

(** [OpenSeaFees] and [ComputedFees] as records of basis points;
    [ComputedFees] extends [OpenSeaFees] with the two totals. *)
Module OpenSeaFees.
Record t : Type := mk {
  openseaSellerFeeBasisPoints : Z;
  openseaBuyerFeeBasisPoints : Z;
  devSellerFeeBasisPoints : Z;
  devBuyerFeeBasisPoints : Z
}.
End OpenSeaFees.

Module ComputedFees.
Record t : Type := mk {
  fees : OpenSeaFees.t;
  totalBuyerFeeBasisPoints : Z;
  totalSellerFeeBasisPoints : Z
}.
End ComputedFees.

(** Modelled from the spec: a basis point is an integer from 0 to 10000,
    parts per 10000. *)
Definition is_basis_point (z : Z) : bool := ((0 <=? z) && (z <=? 10000))%Z.

(** Modelled from the spec: an [OpenSeaFees] is valid when each of its four
    fields is a basis point. *)
Definition valid_OpenSeaFees (f : OpenSeaFees.t) : bool :=
  is_basis_point (OpenSeaFees.openseaSellerFeeBasisPoints f)
  && is_basis_point (OpenSeaFees.openseaBuyerFeeBasisPoints f)
  && is_basis_point (OpenSeaFees.devSellerFeeBasisPoints f)
  && is_basis_point (OpenSeaFees.devBuyerFeeBasisPoints f).

(** Modelled from the spec: a [ComputedFees] is valid when each of its six
    fields, the totals included, is a basis point. *)
Definition valid_ComputedFees (c : ComputedFees.t) : bool :=
  valid_OpenSeaFees (ComputedFees.fees c)
  && is_basis_point (ComputedFees.totalBuyerFeeBasisPoints c)
  && is_basis_point (ComputedFees.totalSellerFeeBasisPoints c).

(** Modelled from the spec: the fee computation, which is not in
    [types.d.ts].  The four basis points of an [OpenSeaFees] are merged into
    a [ComputedFees], which adds the buyer total and the seller total: each
    the sum of the opensea and the dev basis points of its side. *)
Definition computeFees (f : OpenSeaFees.t) : ComputedFees.t :=
  {| ComputedFees.fees := f;
     ComputedFees.totalBuyerFeeBasisPoints :=
       (OpenSeaFees.openseaBuyerFeeBasisPoints f
        + OpenSeaFees.devBuyerFeeBasisPoints f)%Z;
     ComputedFees.totalSellerFeeBasisPoints :=
       (OpenSeaFees.openseaSellerFeeBasisPoints f
        + OpenSeaFees.devSellerFeeBasisPoints f)%Z |}.

(** The JavaScript object of a [ComputedFees]: a [number] under each of the
    six declared names. *)
Definition ComputedFees_value (c : ComputedFees.t) : list (string * value) :=
  [ ("openseaSellerFeeBasisPoints",
     VNum (number_of_Z
             (OpenSeaFees.openseaSellerFeeBasisPoints (ComputedFees.fees c))));
    ("openseaBuyerFeeBasisPoints",
     VNum (number_of_Z
             (OpenSeaFees.openseaBuyerFeeBasisPoints (ComputedFees.fees c))));
    ("devSellerFeeBasisPoints",
     VNum (number_of_Z
             (OpenSeaFees.devSellerFeeBasisPoints (ComputedFees.fees c))));
    ("devBuyerFeeBasisPoints",
     VNum (number_of_Z
             (OpenSeaFees.devBuyerFeeBasisPoints (ComputedFees.fees c))));
    ("totalBuyerFeeBasisPoints",
     VNum (number_of_Z (ComputedFees.totalBuyerFeeBasisPoints c)));
    ("totalSellerFeeBasisPoints",
     VNum (number_of_Z (ComputedFees.totalSellerFeeBasisPoints c))) ].


(** Buyer fees of 60% each: every part is a basis point, their sum is not. *)
Definition excessive_OpenSeaFees : OpenSeaFees.t :=
  {| OpenSeaFees.openseaSellerFeeBasisPoints := 0;
     OpenSeaFees.openseaBuyerFeeBasisPoints := 6000;
     OpenSeaFees.devSellerFeeBasisPoints := 0;
     OpenSeaFees.devBuyerFeeBasisPoints := 6000 |}.

(* ================================================================= *)
(** ** Callbacks *)

(** The parameters and result of a function type, through aliases. *)
Fixpoint call_signature_upto (n : nat) (t : ty)
    : option (list (string * ty) * ty) :=
  match n with
  | O => None
  | S n =>
      match t with
      | TFun ps r => Some (ps, r)
      | TRef name args =>
          match lookup name declarations with
          | Some (DAlias ps body) =>
              call_signature_upto n (subst (combine ps args) body)
          | _ => None
          end
      | _ => None
      end
  end.

Definition call_signature (t : ty) : option (list (string * ty) * ty) :=
  call_signature_upto (S (length declarations)) t.

(** An invocation of a handler of type [t] with the arguments [args]: as
    many arguments as parameters, each conforming to its parameter.  An
    argument the caller leaves out is written [VUndefined]. *)
Definition call_ok (n : nat) (t : ty) (args : list value) : bool :=
  match call_signature t with
  | Some (ps, _) =>
      Nat.eqb (length args) (length ps)
      && forallb (fun p => has_type n (fst p) (snd (snd p))) (combine args ps)
  | None => false
  end.

Definition accepts (t : ty) (args : list value) : Prop :=
  exists n, call_ok n t args = true.

Definition Web3Callback (T : ty) : ty := TRef "Web3Callback" [T].

(* ================================================================= *)
(** ** Orders as records, SDK side and wire side *)

(** The integer a [BigNumber] instance holds (see [VBig]). *)
Definition BigNumber : Set := Z.

Inductive OrderSide : Set := Buy | Sell.
Inductive FeeMethod : Set := ProtocolFee | SplitFee.
Inductive SaleKind : Set := FixedPrice | DutchAuction.
Inductive HowToCall : Set := Call | DelegateCall | StaticCall | Create.

Module UnhashedOrder.
Record t : Type := mk {
  exchange : string;
  maker : string;
  taker : string;
  makerRelayerFee : BigNumber;
  takerRelayerFee : BigNumber;
  makerProtocolFee : BigNumber;
  takerProtocolFee : BigNumber;
  feeRecipient : string;
  target : string;
  calldata : string;
  replacementPattern : string;
  staticTarget : string;
  staticExtradata : string;
  paymentToken : string;
  basePrice : BigNumber;
  extra : BigNumber;
  listingTime : BigNumber;
  expirationTime : BigNumber;
  salt : BigNumber;
  feeMethod : FeeMethod;
  side : OrderSide;
  saleKind : SaleKind;
  howToCall : HowToCall;
  quantity : BigNumber;
  makerReferrerFee : BigNumber;
  waitingForBestCounterOrder : bool;
  englishAuctionReservePrice : option BigNumber;
  metadata : value
}.
End UnhashedOrder.

(** [englishAuctionReservePrice] is [None] for [undefined]; the optional
    properties are [None] when absent. *)
Module OrderJSON.
Record t : Type := mk {
  v : option number;
  r : option string;
  s : option string;
  exchange : string;
  maker : string;
  taker : string;
  makerRelayerFee : string;
  takerRelayerFee : string;
  makerProtocolFee : string;
  takerProtocolFee : string;
  feeRecipient : string;
  feeMethod : number;
  side : number;
  saleKind : number;
  target : string;
  howToCall : number;
  calldata : string;
  replacementPattern : string;
  staticTarget : string;
  staticExtradata : string;
  paymentToken : string;
  basePrice : string;
  extra : string;
  listingTime : number + string;
  expirationTime : number + string;
  salt : string;
  makerReferrerFee : string;
  quantity : string;
  englishAuctionReservePrice : option string;
  createdTime : option (number + string);
  metadata : value;
  nonce : option number
}.
End OrderJSON.

(** The enum members and their numbers, as [types.d.ts] assigns them. *)
Definition OrderSide_number (x : OrderSide) : number :=
  match x with Buy => 0 | Sell => 1 end%float.

Definition FeeMethod_number (x : FeeMethod) : number :=
  match x with ProtocolFee => 0 | SplitFee => 1 end%float.

Definition SaleKind_number (x : SaleKind) : number :=
  match x with FixedPrice => 0 | DutchAuction => 1 end%float.

Definition HowToCall_number (x : HowToCall) : number :=
  match x with
  | Call => 0 | DelegateCall => 1 | StaticCall => 2 | Create => 3
  end%float.

Definition OrderSide_of_number (x : number) : option OrderSide :=
  if (x =? 0)%float then Some Buy
  else if (x =? 1)%float then Some Sell
  else None.

Definition FeeMethod_of_number (x : number) : option FeeMethod :=
  if (x =? 0)%float then Some ProtocolFee
  else if (x =? 1)%float then Some SplitFee
  else None.

Definition SaleKind_of_number (x : number) : option SaleKind :=
  if (x =? 0)%float then Some FixedPrice
  else if (x =? 1)%float then Some DutchAuction
  else None.

Definition HowToCall_of_number (x : number) : option HowToCall :=
  if (x =? 0)%float then Some Call
  else if (x =? 1)%float then Some DelegateCall
  else if (x =? 2)%float then Some StaticCall
  else if (x =? 3)%float then Some Create
  else None.

(** Modelled from the spec: the serializer of [BigNumber] fields, which is
    not in [types.d.ts].  The specification asks for decimal strings: an
    optional minus sign and the decimal digits of the integer. *)
Definition to_decimal (z : BigNumber) : string :=
  NilZero.string_of_int (Z.to_int z).

(** Modelled from the spec: the matching parser; [None] for a string that
    is not a decimal integer. *)
Definition of_decimal (s : string) : option BigNumber :=
  option_map Z.of_int (NilZero.int_of_string s).

(** A decimal string: an optional minus sign, then one digit or more. *)
Definition is_digit (c : ascii) : bool :=
  let n := nat_of_ascii c in (48 <=? n)%nat && (n <=? 57)%nat.

Fixpoint all_digits (s : string) : bool :=
  match s with
  | EmptyString => true
  | String c s => is_digit c && all_digits s
  end.

Definition is_decimal (s : string) : bool :=
  match s with
  | EmptyString => false
  | String c rest =>
      if Ascii.eqb c "-"
      then negb (String.eqb rest "") && all_digits rest
      else all_digits s
  end.

(** A wire field typed [number | string], read as an integer. *)
Definition of_number_or_decimal (x : number + string) : option BigNumber :=
  match x with
  | inl n => number_to_Z n
  | inr s => of_decimal s
  end.

Definition of_optional_decimal (s : option string) : option (option BigNumber) :=
  match s with
  | None => Some None
  | Some s => option_map Some (of_decimal s)
  end.

(** Modelled from the spec: the converter from [UnhashedOrder] to
    [OrderJSON], which is not in [types.d.ts].  Every [BigNumber] field
    becomes its decimal string; the enum fields become their numbers, as
    [OrderJSON] types them; strings and metadata pass unchanged; signature,
    [createdTime] and [nonce] are absent. *)
Definition orderToJSON (o : UnhashedOrder.t) : OrderJSON.t :=
  {| OrderJSON.v := None;
     OrderJSON.r := None;
     OrderJSON.s := None;
     OrderJSON.exchange := UnhashedOrder.exchange o;
     OrderJSON.maker := UnhashedOrder.maker o;
     OrderJSON.taker := UnhashedOrder.taker o;
     OrderJSON.makerRelayerFee := to_decimal (UnhashedOrder.makerRelayerFee o);
     OrderJSON.takerRelayerFee := to_decimal (UnhashedOrder.takerRelayerFee o);
     OrderJSON.makerProtocolFee := to_decimal (UnhashedOrder.makerProtocolFee o);
     OrderJSON.takerProtocolFee := to_decimal (UnhashedOrder.takerProtocolFee o);
     OrderJSON.feeRecipient := UnhashedOrder.feeRecipient o;
     OrderJSON.feeMethod := FeeMethod_number (UnhashedOrder.feeMethod o);
     OrderJSON.side := OrderSide_number (UnhashedOrder.side o);
     OrderJSON.saleKind := SaleKind_number (UnhashedOrder.saleKind o);
     OrderJSON.target := UnhashedOrder.target o;
     OrderJSON.howToCall := HowToCall_number (UnhashedOrder.howToCall o);
     OrderJSON.calldata := UnhashedOrder.calldata o;
     OrderJSON.replacementPattern := UnhashedOrder.replacementPattern o;
     OrderJSON.staticTarget := UnhashedOrder.staticTarget o;
     OrderJSON.staticExtradata := UnhashedOrder.staticExtradata o;
     OrderJSON.paymentToken := UnhashedOrder.paymentToken o;
     OrderJSON.basePrice := to_decimal (UnhashedOrder.basePrice o);
     OrderJSON.extra := to_decimal (UnhashedOrder.extra o);
     OrderJSON.listingTime := inr (to_decimal (UnhashedOrder.listingTime o));
     OrderJSON.expirationTime :=
       inr (to_decimal (UnhashedOrder.expirationTime o));
     OrderJSON.salt := to_decimal (UnhashedOrder.salt o);
     OrderJSON.makerReferrerFee := to_decimal (UnhashedOrder.makerReferrerFee o);
     OrderJSON.quantity := to_decimal (UnhashedOrder.quantity o);
     OrderJSON.englishAuctionReservePrice :=
       option_map to_decimal (UnhashedOrder.englishAuctionReservePrice o);
     OrderJSON.createdTime := None;
     OrderJSON.metadata := UnhashedOrder.metadata o;
     OrderJSON.nonce := None |}.

Definition bind {A B : Type} (x : option A) (f : A -> option B) : option B :=
  match x with
  | Some a => f a
  | None => None
  end.

Notation "'let*' x ':=' e 'in' k" := (bind e (fun x => k))
  (at level 10, x name, e at level 100, k at level 200).

(** Modelled from the spec: the converter from [OrderJSON] back to
    [UnhashedOrder], which is not in [types.d.ts].  [OrderJSON] has no
    property for [waitingForBestCounterOrder], so the caller supplies it.
    The result is [None] when a numeric field is not a decimal integer or
    a discriminant is not a member of its enum. *)
Definition orderFromJSON (waiting : bool) (j : OrderJSON.t)
    : option UnhashedOrder.t :=
  let* makerRelayerFee := of_decimal (OrderJSON.makerRelayerFee j) in
  let* takerRelayerFee := of_decimal (OrderJSON.takerRelayerFee j) in
  let* makerProtocolFee := of_decimal (OrderJSON.makerProtocolFee j) in
  let* takerProtocolFee := of_decimal (OrderJSON.takerProtocolFee j) in
  let* basePrice := of_decimal (OrderJSON.basePrice j) in
  let* extra := of_decimal (OrderJSON.extra j) in
  let* listingTime := of_number_or_decimal (OrderJSON.listingTime j) in
  let* expirationTime := of_number_or_decimal (OrderJSON.expirationTime j) in
  let* salt := of_decimal (OrderJSON.salt j) in
  let* feeMethod := FeeMethod_of_number (OrderJSON.feeMethod j) in
  let* side := OrderSide_of_number (OrderJSON.side j) in
  let* saleKind := SaleKind_of_number (OrderJSON.saleKind j) in
  let* howToCall := HowToCall_of_number (OrderJSON.howToCall j) in
  let* quantity := of_decimal (OrderJSON.quantity j) in
  let* makerReferrerFee := of_decimal (OrderJSON.makerReferrerFee j) in
  let* reserve := of_optional_decimal (OrderJSON.englishAuctionReservePrice j) in
  Some {| UnhashedOrder.exchange := OrderJSON.exchange j;
          UnhashedOrder.maker := OrderJSON.maker j;
          UnhashedOrder.taker := OrderJSON.taker j;
          UnhashedOrder.makerRelayerFee := makerRelayerFee;
          UnhashedOrder.takerRelayerFee := takerRelayerFee;
          UnhashedOrder.makerProtocolFee := makerProtocolFee;
          UnhashedOrder.takerProtocolFee := takerProtocolFee;
          UnhashedOrder.feeRecipient := OrderJSON.feeRecipient j;
          UnhashedOrder.target := OrderJSON.target j;
          UnhashedOrder.calldata := OrderJSON.calldata j;
          UnhashedOrder.replacementPattern := OrderJSON.replacementPattern j;
          UnhashedOrder.staticTarget := OrderJSON.staticTarget j;
          UnhashedOrder.staticExtradata := OrderJSON.staticExtradata j;
          UnhashedOrder.paymentToken := OrderJSON.paymentToken j;
          UnhashedOrder.basePrice := basePrice;
          UnhashedOrder.extra := extra;
          UnhashedOrder.listingTime := listingTime;
          UnhashedOrder.expirationTime := expirationTime;
          UnhashedOrder.salt := salt;
          UnhashedOrder.feeMethod := feeMethod;
          UnhashedOrder.side := side;
          UnhashedOrder.saleKind := saleKind;
          UnhashedOrder.howToCall := howToCall;
          UnhashedOrder.quantity := quantity;
          UnhashedOrder.makerReferrerFee := makerReferrerFee;
          UnhashedOrder.waitingForBestCounterOrder := waiting;
          UnhashedOrder.englishAuctionReservePrice := reserve;
          UnhashedOrder.metadata := OrderJSON.metadata j |}.

(** The fields the specification calls numeric, in the order it lists
    them: fees, base price, extra, listing and expiration time, salt,
    quantity. *)
Definition numeric_fields (o : UnhashedOrder.t) : list BigNumber :=
  [ UnhashedOrder.makerRelayerFee o;
    UnhashedOrder.takerRelayerFee o;
    UnhashedOrder.makerProtocolFee o;
    UnhashedOrder.takerProtocolFee o;
    UnhashedOrder.makerReferrerFee o;
    UnhashedOrder.basePrice o;
    UnhashedOrder.extra o;
    UnhashedOrder.listingTime o;
    UnhashedOrder.expirationTime o;
    UnhashedOrder.salt o;
    UnhashedOrder.quantity o ].

(** The strings [OrderJSON] holds for the same fields. *)
Definition numeric_strings (j : OrderJSON.t) : list string :=
  [ OrderJSON.makerRelayerFee j;
    OrderJSON.takerRelayerFee j;
    OrderJSON.makerProtocolFee j;
    OrderJSON.takerProtocolFee j;
    OrderJSON.makerReferrerFee j;
    OrderJSON.basePrice j;
    OrderJSON.extra j;
    OrderJSON.salt j;
    OrderJSON.quantity j ]
  ++ match OrderJSON.listingTime j with inr s => [ s ] | inl _ => [] end
  ++ match OrderJSON.expirationTime j with inr s => [ s ] | inl _ => [] end.

(** A sale of one token at a base price of 2^64 + 1 wei. *)
Definition example_unhashed : UnhashedOrder.t :=
  {| UnhashedOrder.exchange := "0x7be8076f4ea4a4ad08075c2508e481d6c946d12b";
     UnhashedOrder.maker := "0x0000000000000000000000000000000000000001";
     UnhashedOrder.taker := "0x0000000000000000000000000000000000000000";
     UnhashedOrder.makerRelayerFee := 250%Z;
     UnhashedOrder.takerRelayerFee := 0%Z;
     UnhashedOrder.makerProtocolFee := 0%Z;
     UnhashedOrder.takerProtocolFee := 0%Z;
     UnhashedOrder.feeRecipient := "0x5b3256965e7c3cf26e11fcaf296dfc8807c01073";
     UnhashedOrder.target := "0x06012c8cf97bead5deae237070f9587f8e7a266d";
     UnhashedOrder.calldata := "0x23b872dd";
     UnhashedOrder.replacementPattern := "0x00000000";
     UnhashedOrder.staticTarget := "0x0000000000000000000000000000000000000000";
     UnhashedOrder.staticExtradata := "0x";
     UnhashedOrder.paymentToken := "0x0000000000000000000000000000000000000000";
     UnhashedOrder.basePrice := 18446744073709551617%Z;
     UnhashedOrder.extra := 0%Z;
     UnhashedOrder.listingTime := 1650000000%Z;
     UnhashedOrder.expirationTime := 0%Z;
     UnhashedOrder.salt := 81142896206704438309419675102839567443%Z;
     UnhashedOrder.feeMethod := SplitFee;
     UnhashedOrder.side := Sell;
     UnhashedOrder.saleKind := FixedPrice;
     UnhashedOrder.howToCall := Call;
     UnhashedOrder.quantity := 1%Z;
     UnhashedOrder.makerReferrerFee := 0%Z;
     UnhashedOrder.waitingForBestCounterOrder := false;
     UnhashedOrder.englishAuctionReservePrice := Some 9007199254740993%Z;
     UnhashedOrder.metadata := example_metadata |}.

(* ================================================================= *)
(** ** Bundles as records, and their wire form *)

Inductive WyvernSchemaName : Set :=
| ERC20
| ERC721
| ERC721v3
| ERC1155
| LegacyEnjin
| ENSShortNameAuction.

Definition WyvernSchemaName_string (x : WyvernSchemaName) : string :=
  match x with
  | ERC20 => "ERC20"
  | ERC721 => "ERC721"
  | ERC721v3 => "ERC721v3"
  | ERC1155 => "ERC1155"
  | LegacyEnjin => "Enjin"
  | ENSShortNameAuction => "ENSShortNameAuction"
  end.

Definition WyvernSchemaName_of_string (s : string) : option WyvernSchemaName :=
  if s =? "ERC20" then Some ERC20
  else if s =? "ERC721" then Some ERC721
  else if s =? "ERC721v3" then Some ERC721v3
  else if s =? "ERC1155" then Some ERC1155
  else if s =? "Enjin" then Some LegacyEnjin
  else if s =? "ENSShortNameAuction" then Some ENSShortNameAuction
  else None.

(** [WyvernNFTAsset] and [WyvernFTAsset]; an asset with a [quantity] is
    read as the fungible one. *)
Inductive WyvernAsset : Type :=
| NFT (id address : string)
| FT (id : option string) (address quantity : string).

Module WyvernBundle.
Record t : Type := mk {
  assets : list WyvernAsset;
  schemas : list WyvernSchemaName;
  name : option string;
  description : option string;
  external_link : option string
}.
End WyvernBundle.

Definition optional_entry (k : string) (v : option value)
    : list (string * value) :=
  match v with
  | Some v => [ (k, v) ]
  | None => []
  end.

Definition string_of_value (v : value) : option string :=
  match v with VStr s => Some s | _ => None end.

Definition array_of_value (v : value) : option (list value) :=
  match v with VArr items => Some items | _ => None end.

Definition optional_string (k : string) (o : list (string * value))
    : option (option string) :=
  match lookup k o with
  | None | Some VUndefined => Some None
  | Some (VStr s) => Some (Some s)
  | Some _ => None
  end.

Fixpoint traverse {A B : Type} (f : A -> option B) (l : list A)
    : option (list B) :=
  match l with
  | [] => Some []
  | a :: l =>
      let* b := f a in
      let* bs := traverse f l in
      Some (b :: bs)
  end.

Definition asset_to_value (a : WyvernAsset) : value :=
  match a with
  | NFT id address => VObj [ ("id", VStr id); ("address", VStr address) ]
  | FT id address quantity =>
      VObj (optional_entry "id" (option_map VStr id)
            ++ [ ("address", VStr address); ("quantity", VStr quantity) ])
  end.

Definition asset_of_value (v : value) : option WyvernAsset :=
  match v with
  | VObj o =>
      let* address := bind (lookup "address" o) string_of_value in
      let* id := optional_string "id" o in
      match lookup "quantity" o with
      | Some (VStr quantity) => Some (FT id address quantity)
      | None =>
          match id with
          | Some id => Some (NFT id address)
          | None => None
          end
      | Some _ => None
      end
  | _ => None
  end.

Definition schema_to_value (x : WyvernSchemaName) : value :=
  VStr (WyvernSchemaName_string x).

Definition schema_of_value (v : value) : option WyvernSchemaName :=
  bind (string_of_value v) WyvernSchemaName_of_string.

(** Modelled from the spec: the serialization of a bundle, which is not in
    [types.d.ts]: the object that is sent, with both sequences written in
    order and the optional properties written when they are there. *)
Definition bundleToJSON (b : WyvernBundle.t) : value :=
  VObj ([ ("assets", VArr (map asset_to_value (WyvernBundle.assets b)));
          ("schemas", VArr (map schema_to_value (WyvernBundle.schemas b))) ]
        ++ optional_entry "name" (option_map VStr (WyvernBundle.name b))
        ++ optional_entry "description"
             (option_map VStr (WyvernBundle.description b))
        ++ optional_entry "external_link"
             (option_map VStr (WyvernBundle.external_link b))).

(** Modelled from the spec: the matching deserialization; [None] for a
    value that is not a bundle. *)
Definition bundleFromJSON (v : value) : option WyvernBundle.t :=
  match v with
  | VObj o =>
      let* assets :=
        bind (bind (lookup "assets" o) array_of_value)
             (traverse asset_of_value) in
      let* schemas :=
        bind (bind (lookup "schemas" o) array_of_value)
             (traverse schema_of_value) in
      let* name := optional_string "name" o in
      let* description := optional_string "description" o in
      let* external_link := optional_string "external_link" o in
      Some {| WyvernBundle.assets := assets;
              WyvernBundle.schemas := schemas;
              WyvernBundle.name := name;
              WyvernBundle.description := description;
              WyvernBundle.external_link := external_link |}
  | _ => None
  end.

(** One asset and no schema. *)
Definition mismatched_bundle_fields : list (string * value) :=
  [ ("assets", VArr [ example_asset ]); ("schemas", VArr []) ].

Definition example_bundle_record : WyvernBundle.t :=
  {| WyvernBundle.assets :=
       [ NFT "1" "0x06012c8cf97bead5deae237070f9587f8e7a266d";
         FT None "0xc02aaa39b223fe8d0a0e5c4f27ead9083c756cc2" "1000" ];
     WyvernBundle.schemas := [ ERC721; ERC20 ];
     WyvernBundle.name := Some "Kitty and change";
     WyvernBundle.description := None;
     WyvernBundle.external_link := None |}.

(* ================================================================= *)
(** ** The records as JavaScript values *)

Definition number_or_string (x : number + string) : value :=
  match x with
  | inl n => VNum n
  | inr s => VStr s
  end.

Definition string_or_undefined (x : option string) : value :=
  match x with
  | Some s => VStr s
  | None => VUndefined
  end.

(** The object an [OrderJSON] record stands for: the required properties,
    then the optional ones that are there. *)
Definition OrderJSON_value (j : OrderJSON.t) : value :=
  VObj ([ ("exchange", VStr (OrderJSON.exchange j));
          ("maker", VStr (OrderJSON.maker j));
          ("taker", VStr (OrderJSON.taker j));
          ("makerRelayerFee", VStr (OrderJSON.makerRelayerFee j));
          ("takerRelayerFee", VStr (OrderJSON.takerRelayerFee j));
          ("makerProtocolFee", VStr (OrderJSON.makerProtocolFee j));
          ("takerProtocolFee", VStr (OrderJSON.takerProtocolFee j));
          ("feeRecipient", VStr (OrderJSON.feeRecipient j));
          ("feeMethod", VNum (OrderJSON.feeMethod j));
          ("side", VNum (OrderJSON.side j));
          ("saleKind", VNum (OrderJSON.saleKind j));
          ("target", VStr (OrderJSON.target j));
          ("howToCall", VNum (OrderJSON.howToCall j));
          ("calldata", VStr (OrderJSON.calldata j));
          ("replacementPattern", VStr (OrderJSON.replacementPattern j));
          ("staticTarget", VStr (OrderJSON.staticTarget j));
          ("staticExtradata", VStr (OrderJSON.staticExtradata j));
          ("paymentToken", VStr (OrderJSON.paymentToken j));
          ("basePrice", VStr (OrderJSON.basePrice j));
          ("extra", VStr (OrderJSON.extra j));
          ("listingTime", number_or_string (OrderJSON.listingTime j));
          ("expirationTime", number_or_string (OrderJSON.expirationTime j));
          ("salt", VStr (OrderJSON.salt j));
          ("makerReferrerFee", VStr (OrderJSON.makerReferrerFee j));
          ("quantity", VStr (OrderJSON.quantity j));
          ("englishAuctionReservePrice",
           string_or_undefined (OrderJSON.englishAuctionReservePrice j));
          ("metadata", OrderJSON.metadata j) ]
        ++ optional_entry "v" (option_map VNum (OrderJSON.v j))
        ++ optional_entry "r" (option_map VStr (OrderJSON.r j))
        ++ optional_entry "s" (option_map VStr (OrderJSON.s j))
        ++ optional_entry "createdTime"
             (option_map number_or_string (OrderJSON.createdTime j))
        ++ optional_entry "nonce" (option_map VNum (OrderJSON.nonce j))).

(** The object an [UnhashedOrder] record stands for. *)
Definition UnhashedOrder_value (o : UnhashedOrder.t) : value :=
  VObj ([ ("exchange", VStr (UnhashedOrder.exchange o));
          ("maker", VStr (UnhashedOrder.maker o));
          ("taker", VStr (UnhashedOrder.taker o));
          ("makerRelayerFee", VBig (UnhashedOrder.makerRelayerFee o));
          ("takerRelayerFee", VBig (UnhashedOrder.takerRelayerFee o));
          ("makerProtocolFee", VBig (UnhashedOrder.makerProtocolFee o));
          ("takerProtocolFee", VBig (UnhashedOrder.takerProtocolFee o));
          ("feeRecipient", VStr (UnhashedOrder.feeRecipient o));
          ("target", VStr (UnhashedOrder.target o));
          ("calldata", VStr (UnhashedOrder.calldata o));
          ("replacementPattern", VStr (UnhashedOrder.replacementPattern o));
          ("staticTarget", VStr (UnhashedOrder.staticTarget o));
          ("staticExtradata", VStr (UnhashedOrder.staticExtradata o));
          ("paymentToken", VStr (UnhashedOrder.paymentToken o));
          ("basePrice", VBig (UnhashedOrder.basePrice o));
          ("extra", VBig (UnhashedOrder.extra o));
          ("listingTime", VBig (UnhashedOrder.listingTime o));
          ("expirationTime", VBig (UnhashedOrder.expirationTime o));
          ("salt", VBig (UnhashedOrder.salt o));
          ("feeMethod", VNum (FeeMethod_number (UnhashedOrder.feeMethod o)));
          ("side", VNum (OrderSide_number (UnhashedOrder.side o)));
          ("saleKind", VNum (SaleKind_number (UnhashedOrder.saleKind o)));
          ("howToCall", VNum (HowToCall_number (UnhashedOrder.howToCall o)));
          ("quantity", VBig (UnhashedOrder.quantity o));
          ("makerReferrerFee", VBig (UnhashedOrder.makerReferrerFee o));
          ("waitingForBestCounterOrder",
           VBool (UnhashedOrder.waitingForBestCounterOrder o));
          ("metadata", UnhashedOrder.metadata o) ]
        ++ optional_entry "englishAuctionReservePrice"
             (option_map VBig (UnhashedOrder.englishAuctionReservePrice o))).

(* ================================================================= *)
(** ** Enum members, object keys, events *)

(** The value an enum gives a member, [WyvernSchemaName.LegacyEnjin] being
    ["Enjin"], and the member a value stands for. *)
Definition enum_value (e member : string) : option value :=
  match lookup e declarations with
  | Some (DEnumStr members) => option_map VStr (lookup member members)
  | Some (DEnumNum members) => option_map VNum (lookup member members)
  | _ => None
  end.

Definition enum_member (e : string) (v : value) : option string :=
  match lookup e declarations, v with
  | Some (DEnumStr members), VStr s =>
      option_map fst (find (fun m => String.eqb s (snd m)) members)
  | Some (DEnumNum members), VNum x =>
      option_map fst (find (fun m => PrimFloat.eqb x (snd m)) members)
  | _, _ => None
  end.

(** The members of an enum with their values, in the order of the
    declaration. *)
Definition enum_members (e : string) : option (list (string * value)) :=
  match lookup e declarations with
  | Some (DEnumStr members) =>
      Some (map (fun m => (fst m, VStr (snd m))) members)
  | Some (DEnumNum members) =>
      Some (map (fun m => (fst m, VNum (snd m))) members)
  | _ => None
  end.

(** JavaScript's [===] on the values enums have. *)
Definition same_value (a b : value) : bool :=
  match a, b with
  | VStr s, VStr t => String.eqb s t
  | VNum x, VNum y => PrimFloat.eqb x y
  | _, _ => false
  end.

(** No two entries of the list hold the same value. *)
Fixpoint values_differ (l : list (string * value)) : bool :=
  match l with
  | [] => true
  | p :: l' =>
      forallb (fun q => negb (same_value (snd p) (snd q))
                        && negb (same_value (snd q) (snd p))) l'
      && values_differ l'
  end.

Fixpoint distinct (l : list string) : bool :=
  match l with
  | [] => true
  | k :: l => negb (mem k l) && distinct l
  end.

(** The object without the key [k]. *)
Definition remove_key (k : string) (o : list (string * value))
    : list (string * value) :=
  filter (fun p => negb (String.eqb k (fst p))) o.

(** The event the SDK emits when it asks for the signature of an order. *)
Definition example_event : list (string * value) :=
  [ ("event", VStr "CreateOrder");
    ("accountAddress", VStr "0x0000000000000000000000000000000000000001");
    ("order", example_order false false false) ].

(** An asset of a contract that has no token ids. *)
Definition example_plain_asset : list (string * value) :=
  [ ("tokenId", VNull);
    ("tokenAddress", VStr "0xc02aaa39b223fe8d0a0e5c4f27ead9083c756cc2");
    ("schemaName", VStr "ERC20");
    ("decimals", VNum 18%float) ].

(** A page of one order out of 57 that match. *)
Definition example_response : list (string * value) :=
  [ ("orders", VArr [ example_order_json ]); ("count", VNum 57%float) ].

(** The query interfaces, the event payload and the API configuration. *)
Definition all_optional_interfaces : list string :=
  [ "EventData"; "OpenSeaAPIConfig"; "OpenSeaAssetBundleQuery"; "OrderQuery";
    "OpenSeaAssetQuery"; "OpenSeaFungibleTokenQuery" ].

(** Sell orders of one maker, twenty at a time. *)
Definition example_query : list (string * value) :=
  [ ("maker", VStr "0x0000000000000000000000000000000000000001");
    ("side", VNum 1%float);
    ("limit", VNum 20%float) ].

(** The object without the keys [ks]. *)
Definition remove_keys (ks : list string) (o : list (string * value))
    : list (string * value) :=
  fold_right remove_key o ks.

(** The discriminants of an order and the enums that type them in
    [UnhashedOrder]. *)
Definition order_discriminants : list (string * string) :=
  [ ("feeMethod", "FeeMethod"); ("side", "OrderSide");
    ("saleKind", "SaleKind"); ("howToCall", "HowToCall") ].

(** The interfaces that carry the four discriminants. *)
Definition order_interfaces : list string :=
  [ "UnhashedOrder"; "UnsignedOrder"; "Order"; "OrderJSON"; "OrderQuery" ].

(** Whether every property of [fs] named [k] takes the value [v]. *)
Definition property_admits (fs : list field) (k : string) (v : value) : bool :=
  forallb (fun f => negb (String.eqb (fname f) k) || has_type 1 v (ftype f))
          fs.

(* ================================================================= *)
(** ** Conformance: general facts *)

Lemma forallb_impl {A : Type} (p q : A -> bool) (l : list A) :
  (forall x, p x = true -> q x = true) ->
  forallb p l = true -> forallb q l = true.
Proof.
  intros Hpq. induction l as [|a l IH]; simpl; [easy|].
  rewrite !andb_true_iff. intros [Ha Hl]. split; auto.
Qed.

Lemma field_ok_impl (c1 c2 : value -> ty -> bool) o f :
  (forall v t, c1 v t = true -> c2 v t = true) ->
  field_ok c1 o f = true -> field_ok c2 o f = true.
Proof.
  intros Hc. unfold field_ok. destruct (lookup (fname f) o); [|easy].
  rewrite !orb_true_iff. intros [H|H]; auto.
Qed.

Lemma object_ok_impl (c1 c2 : value -> ty -> bool) v t :
  (forall v t, c1 v t = true -> c2 v t = true) ->
  object_ok c1 v t = true -> object_ok c2 v t = true.
Proof.
  intros Hc. unfold object_ok. destruct v; try easy.
  destruct (properties t); [|easy].
  apply forallb_impl. intros f. now apply field_ok_impl.
Qed.

Lemma index_ok_impl (c1 c2 : value -> ty -> bool) o i :
  (forall v t, c1 v t = true -> c2 v t = true) ->
  index_ok c1 o i = true -> index_ok c2 o i = true.
Proof.
  intros Hc. destruct i; simpl; [|easy].
  apply forallb_impl. intros p. apply Hc.
Qed.

(** One layer of the check is monotone in the check of the parts. *)
Lemma conforms_impl (c1 c2 : value -> ty -> bool) v t :
  (forall v t, c1 v t = true -> c2 v t = true) ->
  conforms c1 v t = true -> conforms c2 v t = true.
Proof.
  intros Hc. destruct t; simpl; try easy.
  - destruct (lookup name declarations) as [[ms|ms|exts own idx|ps body]|];
      try easy.
    + rewrite !andb_true_iff. intros [H1 H2]. split.
      * now apply (object_ok_impl c1).
      * destruct v; try easy. now apply (index_ok_impl c1).
    + apply Hc.
  - destruct v; try easy. apply forallb_impl. intros x. apply Hc.
  - rewrite !orb_true_iff. intros [H|H]; auto.
  - destruct v; try easy. rewrite !andb_true_iff. intros [H1 H2]. split; [easy|].
    revert H2. apply forallb_impl. intros p. apply Hc.
  - destruct v; try easy. apply forallb_impl. intros p.
    rewrite !andb_true_iff. intros [H1 H2]. split; auto.
  - now apply object_ok_impl.
  - now apply object_ok_impl.
Qed.

Lemma has_type_mono n : forall v t,
  has_type n v t = true -> has_type (S n) v t = true.
Proof.
  induction n as [|n IH]; intros v t H; [discriminate|].
  change (conforms (has_type (S n)) v t = true).
  change (conforms (has_type n) v t = true) in H.
  revert H. now apply conforms_impl.
Qed.

Lemma has_type_le n m v t :
  n <= m -> has_type n v t = true -> has_type m v t = true.
Proof.
  induction 1 as [|m Hle IH]; [easy|].
  intros H. apply has_type_mono. auto.
Qed.

Lemma well_typed_at n v t : has_type n v t = true -> well_typed v t.
Proof. intros H. now exists n. Qed.

(** Inversion at the primitive types. *)
Lemma has_type_string n v : has_type n v TString = true -> is_string v.
Proof. destruct n; [easy|]. destruct v; try easy. intros _. now eexists. Qed.

Lemma has_type_number n v : has_type n v TNumber = true -> is_number v.
Proof. destruct n; [easy|]. destruct v; try easy. intros _. now eexists. Qed.

Lemma has_type_undefined n v : has_type n v TUndefined = true -> v = VUndefined.
Proof. destruct n; [easy|]. now destruct v. Qed.

Lemma has_type_union n v a b :
  has_type n v (TUnion a b) = true ->
  exists m, n = S m /\ (has_type m v a = true \/ has_type m v b = true).
Proof.
  destruct n; [easy|]. simpl. rewrite orb_true_iff. intros H. now exists n.
Qed.

(** Inversion at an interface without index signature. *)
Lemma has_type_interface n v name exts own fs :
  lookup name declarations = Some (DInterface exts own None) ->
  properties (Ref name) = Some fs ->
  has_type (S n) v (Ref name) = true <->
  exists o, v = VObj o /\ forallb (field_ok (has_type n) o) fs = true.
Proof.
  intros Hd Hp. change (has_type (S n) v (Ref name))
    with (conforms (has_type n) v (Ref name)).
  unfold conforms. rewrite Hd. unfold object_ok. rewrite Hp.
  destruct v; simpl; try (split; [easy | now intros (o & ? & _)]).
  rewrite andb_true_r. split.
  - intros H. now exists props.
  - intros (o & Ho & H). now injection Ho as ->.
Qed.

Lemma field_ok_required chk o k t :
  field_ok chk o (req k t) = true <->
  exists x, lookup k o = Some x /\ chk x t = true.
Proof.
  unfold field_ok. simpl. destruct (lookup k o) as [x|].
  - rewrite orb_false_r. split.
    + intros H. now exists x.
    + intros (y & Hy & H). now injection Hy as ->.
  - split; [easy | now intros (y & Hy & _)].
Qed.

Lemma field_ok_optional chk o k t :
  field_ok chk o (opt k t) = true <->
  lookup k o = None \/
  exists x, lookup k o = Some x /\ (chk x t = true \/ x = VUndefined).
Proof.
  unfold field_ok. simpl. destruct (lookup k o) as [x|].
  - rewrite orb_true_iff. split.
    + intros H. right. exists x. split; [easy|].
      destruct H as [H|H]; [now left | right; now destruct x].
    + intros [H|(y & Hy & H)]; [easy|]. injection Hy as ->.
      destruct H as [H| ->]; auto.
  - split; auto.
Qed.

Lemma signature_of_In t k f :
  signature_of t k = Some f ->
  exists fs, properties t = Some fs /\ In f fs /\ fname f = k.
Proof.
  unfold signature_of. destruct (properties t) as [fs|]; [|easy].
  intros H. apply find_some in H as [Hin Heq].
  apply String.eqb_eq in Heq. now exists fs.
Qed.

(** A required property of an interface is present in every value of it. *)
Lemma required_property n v name exts own k t :
  lookup name declarations = Some (DInterface exts own None) ->
  signature_of (Ref name) k = Some (req k t) ->
  has_type (S n) v (Ref name) = true ->
  exists o x, v = VObj o /\ lookup k o = Some x /\ has_type n x t = true.
Proof.
  intros Hd Hs H. apply signature_of_In in Hs as (fs & Hp & Hin & _).
  apply (has_type_interface _ _ _ _ _ _ Hd Hp) in H as (o & -> & H).
  rewrite forallb_forall in H. specialize (H _ Hin).
  apply field_ok_required in H as (x & Hx & Hx'). now exists o, x.
Qed.

(** An optional property is absent, [undefined], or conforming. *)
Lemma optional_property n v name exts own k t :
  lookup name declarations = Some (DInterface exts own None) ->
  signature_of (Ref name) k = Some (opt k t) ->
  has_type (S n) v (Ref name) = true ->
  exists o, v = VObj o
    /\ forall x, lookup k o = Some x ->
                 has_type n x t = true \/ x = VUndefined.
Proof.
  intros Hd Hs H. apply signature_of_In in Hs as (fs & Hp & Hin & _).
  apply (has_type_interface _ _ _ _ _ _ Hd Hp) in H as (o & -> & H).
  rewrite forallb_forall in H. specialize (H _ Hin).
  apply field_ok_optional in H. exists o. split; [reflexivity|].
  intros x Hx. destruct H as [H|(y & Hy & H)]; congruence.
Qed.

(** A value of an interface is a value of every interface whose
    properties are among its own. *)
Lemma well_typed_narrow v sub super e1 o1 e2 o2 fsub fsuper :
  lookup sub declarations = Some (DInterface e1 o1 None) ->
  lookup super declarations = Some (DInterface e2 o2 None) ->
  properties (Ref sub) = Some fsub ->
  properties (Ref super) = Some fsuper ->
  incl fsuper fsub ->
  well_typed v (Ref sub) -> well_typed v (Ref super).
Proof.
  intros Hd1 Hd2 Hp1 Hp2 Hincl [n H]. destruct n as [|n]; [discriminate|].
  apply (has_type_interface _ _ _ _ _ _ Hd1 Hp1) in H as (o & -> & H).
  exists (S n). apply (has_type_interface _ _ _ _ _ _ Hd2 Hp2).
  exists o. split; [reflexivity|]. rewrite forallb_forall in *.
  intros f Hf. apply H, Hincl, Hf.
Qed.

(** An object of an interface is an object of every interface that only
    adds optional properties, when it has none of the added keys. *)
Lemma well_typed_widen o sub super e1 o1 e2 o2 fsuper extra :
  lookup sub declarations = Some (DInterface e1 o1 None) ->
  lookup super declarations = Some (DInterface e2 o2 None) ->
  properties (Ref sub) = Some (fsuper ++ extra) ->
  properties (Ref super) = Some fsuper ->
  forallb fopt extra = true ->
  (forall k, In k (names extra) -> lookup k o = None) ->
  well_typed (VObj o) (Ref super) -> well_typed (VObj o) (Ref sub).
Proof.
  intros Hd1 Hd2 Hp1 Hp2 Hopt Hnone [n H]. destruct n as [|n]; [discriminate|].
  apply (has_type_interface _ _ _ _ _ _ Hd2 Hp2) in H as (o' & [= <-] & H).
  exists (S n). apply (has_type_interface _ _ _ _ _ _ Hd1 Hp1).
  exists o. split; [reflexivity|]. rewrite forallb_app, H. simpl.
  rewrite forallb_forall in *. intros f Hf. unfold field_ok.
  rewrite (Hnone (fname f)); [now apply Hopt|]. now apply in_map.
Qed.

Lemma has_type_object n name exts own fs o :
  lookup name declarations = Some (DInterface exts own None) ->
  properties (Ref name) = Some fs ->
  (forall f, In f fs -> field_ok (has_type n) o f = true) ->
  has_type (S n) (VObj o) (Ref name) = true.
Proof.
  intros Hd Hp H. apply (has_type_interface n _ name exts own fs Hd Hp).
  exists o. split; [reflexivity|]. now apply forallb_forall.
Qed.

Lemma lookup_OrderJSON :
  lookup "OrderJSON" declarations = Some Decl.OrderJSON.
Proof. reflexivity. Qed.

Lemma lookup_UnhashedOrder :
  lookup "UnhashedOrder" declarations = Some Decl.UnhashedOrder.
Proof. reflexivity. Qed.

Ltac required_field :=
  apply field_ok_required; eexists; split; [reflexivity|].

Lemma properties_OrderJSON :
  properties (Ref "OrderJSON")
  = Some (partial (own_of Decl.ECSignature) ++ own_of Decl.OrderJSON).
Proof. reflexivity. Qed.

Lemma properties_UnhashedOrder :
  properties (Ref "UnhashedOrder") = Some (own_of Decl.UnhashedOrder).
Proof. reflexivity. Qed.

Lemma example_order_json_typed :
  has_type 8 example_order_json (Ref "OrderJSON") = true.
Proof. vm_compute. reflexivity. Qed.

Lemma example_unhashed_order_typed :
  has_type 8 example_unhashed_order (Ref "UnhashedOrder") = true.
Proof. vm_compute. reflexivity. Qed.

(* ================================================================= *)
(** ** C1: the representation of numeric order fields *)

(** C1, as the specification states it, fails: [side] of a value of type
    [OrderJSON] may be the native number [0], and [listingTime] a number. *)
Lemma numeric_fields_not_all_strings :
  ~ (forall v o k x,
       well_typed v (Ref "OrderJSON") -> v = VObj o ->
       In k numeric_order_fields -> lookup k o = Some x -> is_string x).
Proof.
  intros H.
  destruct (H example_order_json example_order_json_fields "side" (VNum 0%float))
    as [s Hs].
  - exact (well_typed_at _ _ _ example_order_json_typed).
  - reflexivity.
  - unfold numeric_order_fields. simpl. tauto.
  - reflexivity.
  - discriminate.
Qed.

(** C1, amended.  In every value of type [OrderJSON] the fee amounts, base
    price, extra, salt and quantity are strings; the enum discriminants
    [feeMethod], [side], [saleKind] and [howToCall] are native numbers;
    the timestamps [listingTime] and [expirationTime] are a number or a
    string, and so is [createdTime] when it is there and defined. *)
Theorem OrderJSON_numeric_field_types (v : value) :
  well_typed v (Ref "OrderJSON") ->
  exists o, v = VObj o
    /\ (forall k, In k amount_fields ->
          exists x, lookup k o = Some x /\ is_string x)
    /\ (forall k, In k discriminant_fields ->
          exists x, lookup k o = Some x /\ is_number x)
    /\ (forall k, In k timestamp_fields ->
          exists x, lookup k o = Some x /\ (is_number x \/ is_string x))
    /\ (forall x, lookup "createdTime" o = Some x ->
          is_number x \/ is_string x \/ x = VUndefined).
Proof.
  intros [n H]. destruct n as [|n]; [discriminate|].
  assert (Hopt : exists o, v = VObj o
            /\ forall x, lookup "createdTime" o = Some x ->
                 has_type n x (TUnion TNumber TString) = true
                 \/ x = VUndefined).
  { eapply (optional_property n v "OrderJSON"); [reflexivity | reflexivity | exact H]. }
  assert (Hreq : forall k t,
             signature_of (Ref "OrderJSON") k = Some (req k t) ->
             exists o x, v = VObj o /\ lookup k o = Some x
                         /\ has_type n x t = true).
  { intros k t Hs.
    eapply (required_property n v "OrderJSON"); [reflexivity | exact Hs | exact H]. }
  destruct (Hreq "side" TNumber eq_refl) as (o & _ & -> & _).
  exists o. split; [reflexivity|].
  assert (Hreq' : forall k t,
             signature_of (Ref "OrderJSON") k = Some (req k t) ->
             exists x, lookup k o = Some x /\ has_type n x t = true).
  { intros k t Hs. destruct (Hreq k t Hs) as (o' & x & [= <-] & Hx). now exists x. }
  destruct Hopt as (o' & [= <-] & Hopt).
  clear Hreq H. split; [|split; [|split]].
  - intros k Hk.
    assert (Hs : signature_of (Ref "OrderJSON") k = Some (req k TString)).
    { simpl in Hk. repeat (destruct Hk as [<-|Hk]; [reflexivity|]). easy. }
    destruct (Hreq' _ _ Hs) as (x & Hx & Ht). exists x. split; [easy|].
    eapply has_type_string, Ht.
  - intros k Hk.
    assert (Hs : signature_of (Ref "OrderJSON") k = Some (req k TNumber)).
    { simpl in Hk. repeat (destruct Hk as [<-|Hk]; [reflexivity|]). easy. }
    destruct (Hreq' _ _ Hs) as (x & Hx & Ht). exists x. split; [easy|].
    eapply has_type_number, Ht.
  - intros k Hk.
    assert (Hs : signature_of (Ref "OrderJSON") k
                 = Some (req k (TUnion TNumber TString))).
    { simpl in Hk. repeat (destruct Hk as [<-|Hk]; [reflexivity|]). easy. }
    destruct (Hreq' _ _ Hs) as (x & Hx & Ht). exists x. split; [easy|].
    apply has_type_union in Ht as (m & _ & [Ht|Ht]).
    + left. eapply has_type_number, Ht.
    + right. eapply has_type_string, Ht.
  - intros x Hx. destruct (Hopt x Hx) as [Ht| ->]; [|tauto].
    apply has_type_union in Ht as (m & _ & [Ht|Ht]).
    + left. eapply has_type_number, Ht.
    + right. left. eapply has_type_string, Ht.
Qed.

Lemma OrderJSON_numeric_field_types_witness :
  exists o, example_order_json = VObj o
    /\ (forall k, In k amount_fields ->
          exists x, lookup k o = Some x /\ is_string x)
    /\ (forall k, In k discriminant_fields ->
          exists x, lookup k o = Some x /\ is_number x)
    /\ (forall k, In k timestamp_fields ->
          exists x, lookup k o = Some x /\ (is_number x \/ is_string x))
    /\ (forall x, lookup "createdTime" o = Some x ->
          is_number x \/ is_string x \/ x = VUndefined).
Proof.
  apply (OrderJSON_numeric_field_types example_order_json).
  exists 8%nat. vm_compute. reflexivity.
Defined.

(* ================================================================= *)
(** ** C2: the order hierarchy *)

Lemma properties_UnsignedOrder :
  properties (Ref "UnsignedOrder")
  = Some (own_of Decl.UnhashedOrder ++ own_of Decl.UnsignedOrder).
Proof. reflexivity. Qed.

Lemma properties_Order :
  properties (Ref "Order")
  = Some (own_of Decl.UnhashedOrder
          ++ own_of Decl.UnsignedOrder
          ++ partial (own_of Decl.ECSignature)
          ++ own_of Decl.Order).
Proof. reflexivity. Qed.

Lemma example_order_typed (with_v with_r with_s : bool) :
  has_type 8 (example_order with_v with_r with_s) (Ref "Order") = true.
Proof. destruct with_v, with_r, with_s; vm_compute; reflexivity. Qed.

(** C2, as the specification states it, fails: an [Order] may carry [v]
    without [r] and [s]. *)
Lemma signature_not_all_or_nothing :
  ~ (forall v o,
       well_typed v (Ref "Order") -> v = VObj o ->
       present "v" o = present "r" o /\ present "r" o = present "s" o).
Proof.
  intros H.
  destruct (H (example_order true false false) _
              (well_typed_at _ _ _ (example_order_typed true false false))
              eq_refl) as [Hvr _].
  vm_compute in Hvr. discriminate Hvr.
Qed.

(** C2, amended.  [UnsignedOrder] has the properties of [UnhashedOrder]
    and one more, the optional [hash].  [Order] has the properties of
    [UnsignedOrder], then [v], [r] and [s], each optional on its own
    ([Partial<ECSignature>]), then twelve optional properties of its own.
    So every [Order] is an [UnsignedOrder] and every [UnsignedOrder] an
    [UnhashedOrder]; an object without the added keys goes the other way;
    and every choice of which of [v], [r], [s] are present gives a value
    of type [Order]. *)
Theorem order_hierarchy :
  properties (Ref "UnsignedOrder")
  = Some (own_of Decl.UnhashedOrder ++ [ opt "hash" TString ])
  /\ properties (Ref "Order")
     = Some (own_of Decl.UnhashedOrder
             ++ [ opt "hash" TString ]
             ++ [ opt "v" TNumber; opt "r" TString; opt "s" TString ]
             ++ own_of Decl.Order)
  /\ own_of Decl.Order
     = [ opt "createdTime" TBigNumber;
         opt "currentPrice" TBigNumber;
         opt "currentBounty" TBigNumber;
         opt "makerAccount" (Ref "OpenSeaAccount");
         opt "takerAccount" (Ref "OpenSeaAccount");
         opt "paymentTokenContract" (Ref "OpenSeaFungibleToken");
         opt "feeRecipientAccount" (Ref "OpenSeaAccount");
         opt "cancelledOrFinalized" TBoolean;
         opt "markedInvalid" TBoolean;
         opt "asset" (Ref "OpenSeaAsset");
         opt "assetBundle" (Ref "OpenSeaAssetBundle");
         opt "nonce" TNumber ]
  /\ (forall v, well_typed v (Ref "UnsignedOrder") ->
                well_typed v (Ref "UnhashedOrder"))
  /\ (forall v, well_typed v (Ref "Order") ->
                well_typed v (Ref "UnsignedOrder"))
  /\ (forall o, well_typed (VObj o) (Ref "UnhashedOrder") ->
                lookup "hash" o = None ->
                well_typed (VObj o) (Ref "UnsignedOrder"))
  /\ (forall o, well_typed (VObj o) (Ref "UnsignedOrder") ->
                (forall k, In k ([ "v"; "r"; "s" ]
                                 ++ names (own_of Decl.Order)) ->
                           lookup k o = None) ->
                well_typed (VObj o) (Ref "Order"))
  /\ (forall with_v with_r with_s,
        well_typed (example_order with_v with_r with_s) (Ref "Order")
        /\ present "v" (example_unhashed_order_fields
                        ++ [ ("hash", VStr "0x9e1f") ]
                        ++ signature_fields with_v with_r with_s) = with_v
        /\ present "r" (example_unhashed_order_fields
                        ++ [ ("hash", VStr "0x9e1f") ]
                        ++ signature_fields with_v with_r with_s) = with_r
        /\ present "s" (example_unhashed_order_fields
                        ++ [ ("hash", VStr "0x9e1f") ]
                        ++ signature_fields with_v with_r with_s) = with_s).
Proof.
  split; [reflexivity|]. split; [reflexivity|]. split; [reflexivity|].
  split; [|split; [|split; [|split]]].
  - intros v.
    apply (well_typed_narrow v "UnsignedOrder" "UnhashedOrder" _ _ _ _ _ _
             eq_refl eq_refl properties_UnsignedOrder properties_UnhashedOrder).
    apply incl_appl, incl_refl.
  - intros v.
    apply (well_typed_narrow v "Order" "UnsignedOrder" _ _ _ _ _ _
             eq_refl eq_refl properties_Order properties_UnsignedOrder).
    apply incl_app; [apply incl_appl, incl_refl|].
    apply incl_appr, incl_appl, incl_refl.
  - intros o H Hhash.
    apply (well_typed_widen o "UnsignedOrder" "UnhashedOrder" _ _ _ _
             (own_of Decl.UnhashedOrder) (own_of Decl.UnsignedOrder)
             eq_refl eq_refl properties_UnsignedOrder properties_UnhashedOrder
             eq_refl); [|exact H].
    intros k [<-|[]]. exact Hhash.
  - intros o H Hnone.
    apply (well_typed_widen o "Order" "UnsignedOrder" _ _ _ _
             (own_of Decl.UnhashedOrder ++ own_of Decl.UnsignedOrder)
             (partial (own_of Decl.ECSignature) ++ own_of Decl.Order)
             eq_refl eq_refl eq_refl eq_refl eq_refl); [|exact H].
    exact Hnone.
  - intros with_v with_r with_s. split.
    + exact (well_typed_at _ _ _ (example_order_typed with_v with_r with_s)).
    + destruct with_v, with_r, with_s; vm_compute; repeat split.
Qed.

Lemma order_hierarchy_witness :
  well_typed (example_order true false true) (Ref "UnsignedOrder")
  /\ well_typed example_unhashed_order (Ref "UnsignedOrder").
Proof.
  destruct order_hierarchy as (_ & _ & _ & _ & Hnarrow & Hwiden & _).
  split.
  - apply Hnarrow. exists 8%nat. vm_compute. reflexivity.
  - apply Hwiden; [|reflexivity]. exists 8%nat. vm_compute. reflexivity.
Defined.

(* ================================================================= *)
(** ** C3: order metadata *)

Lemma order_with_both_typed :
  has_type 10 order_with_both (Ref "Order") = true.
Proof. vm_compute. reflexivity. Qed.

(** C3, as the specification states it, fails: metadata holding [asset],
    [schema] and [bundle] together conforms to both variants of
    [ExchangeMetadata], and an order may carry it. *)
Lemma metadata_may_conform_to_both :
  ~ (forall v o m,
       well_typed v (Ref "Order") -> v = VObj o ->
       lookup "metadata" o = Some m ->
       (well_typed m (Ref "ExchangeMetadataForAsset")
        /\ ~ well_typed m (Ref "ExchangeMetadataForBundle"))
       \/ (well_typed m (Ref "ExchangeMetadataForBundle")
           /\ ~ well_typed m (Ref "ExchangeMetadataForAsset"))).
Proof.
  intros H.
  destruct (H order_with_both order_with_both_fields asset_and_bundle_metadata
              (well_typed_at _ _ _ order_with_both_typed) eq_refl eq_refl)
    as [[_ Hn]|[_ Hn]]; apply Hn; exists 8%nat; vm_compute; reflexivity.
Qed.

(** C3, amended.  Every [Order] has the property [metadata], and its value
    conforms to at least one of the two variants of [ExchangeMetadata]: it
    is an object with [asset] and [schema], or an object with [bundle]. *)
Theorem order_metadata_variant (v : value) :
  well_typed v (Ref "Order") ->
  exists o m fields,
    v = VObj o /\ lookup "metadata" o = Some m /\ m = VObj fields
    /\ ((well_typed m (Ref "ExchangeMetadataForAsset")
         /\ (exists a, lookup "asset" fields = Some a)
         /\ (exists s, lookup "schema" fields = Some s))
        \/ (well_typed m (Ref "ExchangeMetadataForBundle")
            /\ exists b, lookup "bundle" fields = Some b)).
Proof.
  intros [n H]. destruct n as [|n]; [discriminate|].
  eapply (required_property n v "Order" _ _ "metadata" (Ref "ExchangeMetadata"))
    in H as (o & m & -> & Hm & H); [| reflexivity | reflexivity].
  destruct n as [|n]; [discriminate|].
  change (has_type n m (TUnion (Ref "ExchangeMetadataForAsset")
                               (Ref "ExchangeMetadataForBundle")) = true) in H.
  apply has_type_union in H as (k & -> & [H|H]).
  - destruct k as [|k]; [discriminate|].
    pose proof H as H'.
    eapply (required_property k m "ExchangeMetadataForAsset" _ _
              "asset" (Ref "WyvernAsset"))
      in H' as (fields & a & -> & Ha & _); [| reflexivity | reflexivity].
    pose proof H as H'.
    eapply (required_property k _ "ExchangeMetadataForAsset" _ _
              "schema" (Ref "WyvernSchemaName"))
      in H' as (fields' & s & [= <-] & Hs & _); [| reflexivity | reflexivity].
    exists o, (VObj fields), fields. repeat split; try easy.
    left. repeat split; [now exists (S k) | now exists a | now exists s].
  - destruct k as [|k]; [discriminate|].
    pose proof H as H'.
    eapply (required_property k m "ExchangeMetadataForBundle" _ _
              "bundle" (Ref "WyvernBundle"))
      in H' as (fields & b & -> & Hb & _); [| reflexivity | reflexivity].
    exists o, (VObj fields), fields. repeat split; try easy.
    right. split; [now exists (S k) | now exists b].
Qed.

Lemma order_metadata_variant_witness :
  exists o m fields,
    example_order true true true = VObj o
    /\ lookup "metadata" o = Some m /\ m = VObj fields
    /\ ((well_typed m (Ref "ExchangeMetadataForAsset")
         /\ (exists a, lookup "asset" fields = Some a)
         /\ (exists s, lookup "schema" fields = Some s))
        \/ (well_typed m (Ref "ExchangeMetadataForBundle")
            /\ exists b, lookup "bundle" fields = Some b)).
Proof.
  apply (order_metadata_variant (example_order true true true)).
  exists 8%nat. vm_compute. reflexivity.
Defined.

(* ================================================================= *)
(** ** C4: the records conform, and the order round trip *)

(** An [OrderJSON] record with conforming metadata is a value of the
    declared type [OrderJSON]. *)
Lemma OrderJSON_value_typed (j : OrderJSON.t) :
  well_typed (OrderJSON.metadata j) (Ref "ExchangeMetadata") ->
  well_typed (OrderJSON_value j) (Ref "OrderJSON").
Proof.
  intros [n Hm]. exists (S (S (S n))).
  destruct j as [v r s exchange maker taker mrf trf mpf tpf recipient
                   method side kind target how calldata pattern starget
                   sextra token price extra lt et salt referrer quantity
                   reserve ct metadata nonce].
  unfold OrderJSON_value.
  cbn [OrderJSON.v OrderJSON.r OrderJSON.s OrderJSON.exchange OrderJSON.maker
       OrderJSON.taker OrderJSON.makerRelayerFee OrderJSON.takerRelayerFee
       OrderJSON.makerProtocolFee OrderJSON.takerProtocolFee
       OrderJSON.feeRecipient OrderJSON.feeMethod OrderJSON.side
       OrderJSON.saleKind OrderJSON.target OrderJSON.howToCall
       OrderJSON.calldata OrderJSON.replacementPattern OrderJSON.staticTarget
       OrderJSON.staticExtradata OrderJSON.paymentToken OrderJSON.basePrice
       OrderJSON.extra OrderJSON.listingTime OrderJSON.expirationTime
       OrderJSON.salt OrderJSON.makerReferrerFee OrderJSON.quantity
       OrderJSON.englishAuctionReservePrice OrderJSON.createdTime
       OrderJSON.metadata OrderJSON.nonce] in *.
  apply (has_type_object _ "OrderJSON" _ _ _ _ lookup_OrderJSON
           properties_OrderJSON).
  intros f Hf.
  cbn [partial own_of Decl.ECSignature Decl.OrderJSON map app In fname ftype]
    in Hf.
  repeat (destruct Hf as [<-|Hf]); [.. | contradiction];
    try (required_field; reflexivity).
  - destruct v, r, s, ct as [[x|x]|], nonce; reflexivity.
  - destruct v, r, s, ct as [[x|x]|], nonce; reflexivity.
  - destruct v, r, s, ct as [[x|x]|], nonce; reflexivity.
  - required_field. now destruct lt.
  - required_field. now destruct et.
  - required_field. now destruct reserve.
  - destruct v, r, s, ct as [[x|x]|], nonce; reflexivity.
  - required_field. apply (has_type_le n); [lia | exact Hm].
  - destruct v, r, s, ct as [[x|x]|], nonce; reflexivity.
Qed.

(** An [UnhashedOrder] record with conforming metadata is a value of the
    declared type [UnhashedOrder]. *)
Lemma UnhashedOrder_value_typed (o : UnhashedOrder.t) :
  well_typed (UnhashedOrder.metadata o) (Ref "ExchangeMetadata") ->
  well_typed (UnhashedOrder_value o) (Ref "UnhashedOrder").
Proof.
  intros [n Hm]. exists (S (S (S n))).
  destruct o as [exchange maker taker mrf trf mpf tpf recipient target
                   calldata pattern starget sextra token price extra lt et
                   salt method side kind how quantity referrer waiting
                   reserve metadata].
  unfold UnhashedOrder_value.
  cbn [UnhashedOrder.exchange UnhashedOrder.maker UnhashedOrder.taker
       UnhashedOrder.makerRelayerFee UnhashedOrder.takerRelayerFee
       UnhashedOrder.makerProtocolFee UnhashedOrder.takerProtocolFee
       UnhashedOrder.feeRecipient UnhashedOrder.target UnhashedOrder.calldata
       UnhashedOrder.replacementPattern UnhashedOrder.staticTarget
       UnhashedOrder.staticExtradata UnhashedOrder.paymentToken
       UnhashedOrder.basePrice UnhashedOrder.extra UnhashedOrder.listingTime
       UnhashedOrder.expirationTime UnhashedOrder.salt UnhashedOrder.feeMethod
       UnhashedOrder.side UnhashedOrder.saleKind UnhashedOrder.howToCall
       UnhashedOrder.quantity UnhashedOrder.makerReferrerFee
       UnhashedOrder.waitingForBestCounterOrder
       UnhashedOrder.englishAuctionReservePrice UnhashedOrder.metadata] in *.
  apply (has_type_object _ "UnhashedOrder" _ _ _ _ lookup_UnhashedOrder
           properties_UnhashedOrder).
  intros f Hf.
  cbn [own_of Decl.UnhashedOrder In] in Hf.
  repeat (destruct Hf as [<-|Hf]); [.. | contradiction];
    try (required_field; reflexivity).
  - destruct reserve; reflexivity.
  - required_field. apply (has_type_le n); [lia | exact Hm].
Qed.

(** What [orderToJSON] returns is an [OrderJSON]. *)
Lemma orderToJSON_typed (o : UnhashedOrder.t) :
  well_typed (UnhashedOrder.metadata o) (Ref "ExchangeMetadata") ->
  well_typed (OrderJSON_value (orderToJSON o)) (Ref "OrderJSON").
Proof. intros H. now apply OrderJSON_value_typed. Qed.

Lemma of_to_decimal (z : BigNumber) : of_decimal (to_decimal z) = Some z.
Proof.
  unfold of_decimal, to_decimal. rewrite NilZero.isi.
  - simpl. now rewrite DecimalZ.of_to.
  - destruct z; simpl; try discriminate.
    intros [= H]. now apply DecimalPos.Unsigned.to_uint_nonnil in H.
  - destruct z; simpl; try discriminate.
    intros [= H]. now apply DecimalPos.Unsigned.to_uint_nonnil in H.
Qed.

Lemma all_digits_string_of_uint d :
  all_digits (NilEmpty.string_of_uint d) = true.
Proof. induction d; simpl; auto. Qed.

(** The serializer writes decimal strings only. *)
Lemma to_decimal_is_decimal (z : BigNumber) : is_decimal (to_decimal z) = true.
Proof.
  unfold to_decimal. destruct z as [|p|p]; [reflexivity| |]; simpl;
    pose proof (Unsigned.to_uint_nonnil p) as Hn;
    pose proof (all_digits_string_of_uint (Pos.to_uint p)) as Hd;
    destruct (Pos.to_uint p) eqn:E; try easy; simpl in *; exact Hd.
Qed.

Lemma OrderSide_of_to x : OrderSide_of_number (OrderSide_number x) = Some x.
Proof. now destruct x. Qed.

Lemma FeeMethod_of_to x : FeeMethod_of_number (FeeMethod_number x) = Some x.
Proof. now destruct x. Qed.

Lemma SaleKind_of_to x : SaleKind_of_number (SaleKind_number x) = Some x.
Proof. now destruct x. Qed.

Lemma HowToCall_of_to x : HowToCall_of_number (HowToCall_number x) = Some x.
Proof. now destruct x. Qed.

(** The converters are inverse on every order, up to the flag the wire
    shape does not carry. *)
Lemma orderFromJSON_orderToJSON (o : UnhashedOrder.t) :
  orderFromJSON (UnhashedOrder.waitingForBestCounterOrder o) (orderToJSON o)
  = Some o.
Proof.
  destruct o as [? ? ? ? ? ? ? ? ? ? ? ? ? ? ? ? ? ? ? ? ? ? ? ? ? ? reserve ?].
  unfold orderFromJSON, orderToJSON. simpl.
  rewrite !of_to_decimal. simpl.
  rewrite FeeMethod_of_to, OrderSide_of_to, SaleKind_of_to, HowToCall_of_to.
  simpl.
  destruct reserve as [z|]; simpl; rewrite ?of_to_decimal; reflexivity.
Qed.

(** A double has 53 bits of mantissa: 2^53 + 1 is not a [number]. *)
Lemma number_rounds_above_2_53 :
  number_to_Z (9007199254740992 + 1)%float = Some 9007199254740992%Z.
Proof. vm_compute. reflexivity. Qed.

(** The example scenario of the specification. *)
Lemma example_scenario (j : OrderJSON.t) (o : UnhashedOrder.t) (w : bool) :
  OrderJSON.side j = 0%float ->
  OrderJSON.saleKind j = 0%float ->
  OrderJSON.basePrice j = "1000000000000000000" ->
  OrderJSON.extra j = "0" ->
  orderFromJSON w j = Some o ->
  UnhashedOrder.basePrice o = (10 ^ 18)%Z
  /\ UnhashedOrder.side o = Buy
  /\ UnhashedOrder.saleKind o = FixedPrice
  /\ UnhashedOrder.extra o = 0%Z.
Proof.
  intros Hside Hkind Hbase Hextra. unfold orderFromJSON.
  rewrite Hside, Hkind, Hbase, Hextra.
  repeat match goal with
         | |- bind ?e _ = Some _ -> _ =>
             let E := fresh "E" in destruct e eqn:E; simpl; [|discriminate]
         end.
  intros [= <-]. simpl. repeat split.
Qed.

(** C4.  Converting any [UnhashedOrder] to [OrderJSON] gives a value of
    the declared type [OrderJSON] whose numeric strings are decimal, and
    converting back succeeds and returns an order with the same fees, base
    price, extra, listing and expiration time, salt and quantity, whatever
    their size; for instance a reserve price of 2^53 + 1 and a base price
    of 2^64 + 1. *)
Theorem order_round_trip_numeric_fields :
  (forall (o : UnhashedOrder.t) (waiting : bool),
     exists o',
       orderFromJSON waiting (orderToJSON o) = Some o'
       /\ numeric_fields o' = numeric_fields o
       /\ UnhashedOrder.englishAuctionReservePrice o'
          = UnhashedOrder.englishAuctionReservePrice o)
  /\ (forall o : UnhashedOrder.t,
        Forall (fun s => is_decimal s = true) (numeric_strings (orderToJSON o)))
  /\ (forall o : UnhashedOrder.t,
        well_typed (UnhashedOrder.metadata o) (Ref "ExchangeMetadata") ->
        well_typed (OrderJSON_value (orderToJSON o)) (Ref "OrderJSON"))
  /\ (exists o',
        orderFromJSON false (orderToJSON example_unhashed) = Some o'
        /\ UnhashedOrder.basePrice o' = (2 ^ 64 + 1)%Z
        /\ UnhashedOrder.englishAuctionReservePrice o' = Some (2 ^ 53 + 1)%Z
        /\ OrderJSON.basePrice (orderToJSON example_unhashed)
           = "18446744073709551617").
Proof.
  split; [|split; [|split]].
  - intros o waiting.
    pose proof (orderFromJSON_orderToJSON o) as H.
    destruct o as [? ? ? ? ? ? ? ? ? ? ? ? ? ? ? ? ? ? ? ? ? ? ? ? ? ? reserve ?].
    unfold orderFromJSON, orderToJSON in *. simpl in *.
    repeat match goal with
           | H : bind ?e _ = Some _ |- _ =>
               let E := fresh "E" in
               destruct e eqn:E; simpl in H; [|discriminate H]
           end.
    injection H as -> -> -> -> -> -> -> -> -> -> -> -> -> -> -> ->.
    eexists. split; [reflexivity|]. split; reflexivity.
  - intros o. unfold numeric_strings, orderToJSON. simpl.
    repeat (constructor; [apply to_decimal_is_decimal|]). constructor.
  - exact orderToJSON_typed.
  - exists example_unhashed.
    split; [exact (orderFromJSON_orderToJSON example_unhashed)|].
    repeat split.
Qed.

Lemma order_round_trip_numeric_fields_witness :
  well_typed (OrderJSON_value (orderToJSON example_unhashed)) (Ref "OrderJSON").
Proof.
  apply (proj1 (proj2 (proj2 order_round_trip_numeric_fields))).
  exists 7%nat. vm_compute. reflexivity.
Defined.

(* ================================================================= *)
(** ** C5: [WyvernAtomicMatchParameters] is an 11-slot tuple *)

Lemma forallb_combine_Forall2 {A B : Type} (p : A -> B -> bool) :
  forall (l : list A) (m : list B),
  Nat.eqb (length l) (length m)
  && forallb (fun q => p (fst q) (snd q)) (combine l m) = true
  <-> Forall2 (fun x y => p x y = true) l m.
Proof.
  induction l as [|a l IH]; intros [|b m]; simpl.
  - split; [constructor | reflexivity].
  - split; [discriminate | intros H; inversion H].
  - split; [discriminate | intros H; inversion H].
  - rewrite andb_assoc, (andb_comm (Nat.eqb _ _)), <- andb_assoc, andb_true_iff, IH.
    split.
    + intros [H1 H2]. now constructor.
    + intros H. inversion H; subst. easy.
Qed.

Lemma Forall2_well_typed_depth (l : list value) (ts : list ty) :
  Forall2 well_typed l ts ->
  exists n, Forall2 (fun x t => has_type n x t = true) l ts.
Proof.
  induction 1 as [|x t l ts [n Hn] _ [m Hm]].
  - exists 0%nat. constructor.
  - exists (Nat.max n m). constructor.
    + apply (has_type_le n); [lia | exact Hn].
    + revert Hm. apply Forall2_impl. intros y u.
      apply has_type_le. lia.
Qed.

Lemma well_typed_tuple (v : value) (slots : list ty) :
  well_typed v (TTuple slots) <->
  exists items, v = VArr items /\ Forall2 well_typed items slots.
Proof.
  split.
  - intros [n H]. destruct n as [|n]; [discriminate|]. simpl in H.
    destruct v; try discriminate. exists items. split; [reflexivity|].
    apply forallb_combine_Forall2 in H. revert H. apply Forall2_impl.
    intros x t Hx. now exists n.
  - intros (items & -> & H). apply Forall2_well_typed_depth in H as [n H].
    exists (S n). simpl. now apply forallb_combine_Forall2.
Qed.

Lemma well_typed_alias (v : value) (name : string) (body : ty) :
  lookup name declarations = Some (DAlias [] body) ->
  well_typed v (Ref name) <-> well_typed v body.
Proof.
  intros Hd. assert (Hs : forall t, subst [] t = t).
  { fix IH 1. intros t. destruct t; simpl; try reflexivity.
    - f_equal. induction args as [|a args IHa]; simpl; [easy|]. now rewrite IH, IHa.
    - now rewrite IH.
    - now rewrite !IH.
    - f_equal. induction slots as [|a l IHa]; simpl; [easy|]. now rewrite IH, IHa.
    - now rewrite !IH.
    - now rewrite IH.
    - now rewrite IH.
    - f_equal; [|apply IH].
      induction params as [|[x a] l IHa]; simpl; [easy|]. now rewrite IH, IHa. }
  split; intros [n H].
  - destruct n as [|n]; [discriminate|]. simpl in H. rewrite Hd in H.
    simpl in H. rewrite Hs in H. now exists n.
  - exists (S n). simpl. rewrite Hd. simpl. now rewrite Hs.
Qed.

(** C5, as the specification states it, fails: with five string fields the
    layout has ten slots, and differs from the declared tuple. *)
Lemma match_parameters_not_five_strings :
  ~ (slots_of Decl.WyvernAtomicMatchParameters = layout_with_five_strings
     /\ length layout_with_five_strings = 11%nat).
Proof. intros [_ H]. discriminate H. Qed.

(** C5, amended.  [WyvernAtomicMatchParameters] is a tuple of exactly 11
    slots in this order: a string array, a [BigNumber] array, an array of
    [number | BigNumber], six strings, an array of [number | BigNumber] and
    a string array.  A value is of the type exactly when it is an array
    whose items conform to the slots position by position; an array with a
    slot left out or with slots 3 and 4 exchanged is not. *)
Theorem WyvernAtomicMatchParameters_layout :
  slots_of Decl.WyvernAtomicMatchParameters
  = [ TArray TString; TArray TBigNumber; TArray (TUnion TNumber TBigNumber);
      TString; TString; TString; TString; TString; TString;
      TArray (TUnion TNumber TBigNumber); TArray TString ]
  /\ length (slots_of Decl.WyvernAtomicMatchParameters) = 11%nat
  /\ (forall v,
        well_typed v (Ref "WyvernAtomicMatchParameters") <->
        exists items, v = VArr items
          /\ Forall2 well_typed items
               (slots_of Decl.WyvernAtomicMatchParameters))
  /\ well_typed (VArr example_match_parameters)
       (Ref "WyvernAtomicMatchParameters")
  /\ ~ well_typed (VArr (removelast example_match_parameters))
         (Ref "WyvernAtomicMatchParameters")
  /\ ~ well_typed (VArr permuted_match_parameters)
         (Ref "WyvernAtomicMatchParameters").
Proof.
  assert (Hiff : forall v,
             well_typed v (Ref "WyvernAtomicMatchParameters") <->
             exists items, v = VArr items
               /\ Forall2 well_typed items
                    (slots_of Decl.WyvernAtomicMatchParameters)).
  { intros v. rewrite <- well_typed_tuple. now apply well_typed_alias. }
  split; [reflexivity|]. split; [reflexivity|]. split; [exact Hiff|].
  split; [|split].
  - exists 5%nat. vm_compute. reflexivity.
  - intros H. apply Hiff in H as (items & [= <-] & H).
    apply Forall2_length in H. discriminate H.
  - intros H. apply Hiff in H as (items & [= <-] & H).
    unfold permuted_match_parameters in H. simpl in H.
    inversion H as [|? ? ? ? _ H1]; subst. clear H.
    inversion H1 as [|? ? ? ? _ H2]; subst. clear H1.
    inversion H2 as [|? ? ? ? [n Hn] _]; subst.
    destruct n; discriminate Hn.
Qed.

(* ================================================================= *)
(** ** C6: [ComputedFees] *)



(** The declared type alone asks for six numbers: it neither bounds a field
    nor relates a total to its parts. *)
Lemma ComputedFees_type_is_six_numbers :
  well_typed (VObj unbalanced_fees) (Ref "ComputedFees")
  /\ fees_invariant unbalanced_fees = false
  /\ well_typed (VObj example_fees) (Ref "ComputedFees")
  /\ fees_invariant example_fees = true.
Proof.
  split; [exists 2%nat; vm_compute; reflexivity|].
  split; [vm_compute; reflexivity|].
  split; [exists 2%nat|]; vm_compute; reflexivity.
Qed.

Lemma exact_upto_spec (n : nat) (z x : Z) :
  exact_upto n z = true -> (z <= x < z + Z.of_nat n)%Z ->
  number_to_Z (number_of_Z x) = Some x.
Proof.
  revert z. induction n as [|n IH]; intros z H Hx; [lia|].
  cbn [exact_upto] in H. apply andb_true_iff in H as [H0 H1].
  destruct (Z.eq_dec x z) as [->|Hne].
  - destruct (number_to_Z (number_of_Z z)) as [y|]; [|discriminate].
    apply Z.eqb_eq in H0. now subst.
  - apply (IH (z + 1)%Z H1). lia.
Qed.

(** Every integer from 0 to 10000 is held exactly by its [number]. *)
Lemma number_of_Z_exact (z : Z) :
  (0 <= z <= 10000)%Z -> number_to_Z (number_of_Z z) = Some z.
Proof.
  intros Hz. apply (exact_upto_spec (Z.to_nat 10001) 0%Z).
  - vm_compute. reflexivity.
  - rewrite Z2Nat.id; lia.
Qed.

Lemma is_basis_point_spec (z : Z) :
  is_basis_point z = true <-> (0 <= z <= 10000)%Z.
Proof. unfold is_basis_point. rewrite andb_true_iff, !Z.leb_le. tauto. Qed.

Lemma valid_ComputedFees_spec (c : ComputedFees.t) :
  valid_ComputedFees c = true <->
  (0 <= OpenSeaFees.openseaSellerFeeBasisPoints (ComputedFees.fees c) <= 10000
   /\ 0 <= OpenSeaFees.openseaBuyerFeeBasisPoints (ComputedFees.fees c) <= 10000
   /\ 0 <= OpenSeaFees.devSellerFeeBasisPoints (ComputedFees.fees c) <= 10000
   /\ 0 <= OpenSeaFees.devBuyerFeeBasisPoints (ComputedFees.fees c) <= 10000
   /\ 0 <= ComputedFees.totalBuyerFeeBasisPoints c <= 10000
   /\ 0 <= ComputedFees.totalSellerFeeBasisPoints c <= 10000)%Z.
Proof.
  unfold valid_ComputedFees, valid_OpenSeaFees.
  rewrite !andb_true_iff, !is_basis_point_spec. tauto.
Qed.


(** Each field of a valid record is read back from the object unchanged. *)
Lemma ComputedFees_value_reads (c : ComputedFees.t) :
  valid_ComputedFees c = true ->
  let o := ComputedFees_value c in
  basis_points "openseaSellerFeeBasisPoints" o
  = Some (OpenSeaFees.openseaSellerFeeBasisPoints (ComputedFees.fees c))
  /\ basis_points "openseaBuyerFeeBasisPoints" o
     = Some (OpenSeaFees.openseaBuyerFeeBasisPoints (ComputedFees.fees c))
  /\ basis_points "devSellerFeeBasisPoints" o
     = Some (OpenSeaFees.devSellerFeeBasisPoints (ComputedFees.fees c))
  /\ basis_points "devBuyerFeeBasisPoints" o
     = Some (OpenSeaFees.devBuyerFeeBasisPoints (ComputedFees.fees c))
  /\ basis_points "totalBuyerFeeBasisPoints" o
     = Some (ComputedFees.totalBuyerFeeBasisPoints c)
  /\ basis_points "totalSellerFeeBasisPoints" o
     = Some (ComputedFees.totalSellerFeeBasisPoints c).
Proof.
  intros H. apply valid_ComputedFees_spec in H
    as (H1 & H2 & H3 & H4 & H5 & H6).
  repeat split; cbv [basis_points ComputedFees_value lookup]; simpl;
    now apply number_of_Z_exact.
Qed.



(** The computed fees are valid exactly when the parts are basis points and
    neither sum exceeds 10000. *)
Lemma computeFees_valid (f : OpenSeaFees.t) :
  valid_ComputedFees (computeFees f) = true <->
  valid_OpenSeaFees f = true
  /\ (OpenSeaFees.openseaBuyerFeeBasisPoints f
      + OpenSeaFees.devBuyerFeeBasisPoints f <= 10000)%Z
  /\ (OpenSeaFees.openseaSellerFeeBasisPoints f
      + OpenSeaFees.devSellerFeeBasisPoints f <= 10000)%Z.
Proof.
  rewrite valid_ComputedFees_spec. unfold valid_OpenSeaFees.
  rewrite !andb_true_iff, !is_basis_point_spec. simpl. lia.
Qed.

(** The objects that satisfy the invariant are those that read as a valid
    outcome of the computation. *)
Lemma fees_invariant_computed (o : list (string * value)) :
  fees_invariant o = true <->
  exists f, valid_ComputedFees (computeFees f) = true
    /\ forall k, In k fee_names ->
         basis_points k o = basis_points k (ComputedFees_value (computeFees f)).
Proof.
  split.
  - unfold fees_invariant. rewrite !andb_true_iff, forallb_forall.
    intros [[Hr Hb] Hs].
    assert (Hz : forall k, In k fee_names ->
              exists z, basis_points k o = Some z /\ (0 <= z <= 10000)%Z).
    { intros k Hk. specialize (Hr k Hk).
      destruct (basis_points k o) as [z|]; [|discriminate].
      exists z. split; [reflexivity|]. simpl in Hr.
      apply andb_true_iff in Hr. rewrite !Z.leb_le in Hr. exact Hr. }
    destruct (Hz "openseaSellerFeeBasisPoints") as (a & Ea & Ha); [simpl; tauto|].
    destruct (Hz "openseaBuyerFeeBasisPoints") as (b & Eb & Hb'); [simpl; tauto|].
    destruct (Hz "devSellerFeeBasisPoints") as (c & Ec & Hc); [simpl; tauto|].
    destruct (Hz "devBuyerFeeBasisPoints") as (d & Ed & Hd); [simpl; tauto|].
    destruct (Hz "totalBuyerFeeBasisPoints") as (tb & Etb & Htb); [simpl; tauto|].
    destruct (Hz "totalSellerFeeBasisPoints") as (ts & Ets & Hts); [simpl; tauto|].
    rewrite Etb, Eb, Ed in Hb. rewrite Ets, Ea, Ec in Hs. simpl in Hb, Hs.
    apply Z.eqb_eq in Hb, Hs. subst tb ts.
    set (f := {| OpenSeaFees.openseaSellerFeeBasisPoints := a;
                 OpenSeaFees.openseaBuyerFeeBasisPoints := b;
                 OpenSeaFees.devSellerFeeBasisPoints := c;
                 OpenSeaFees.devBuyerFeeBasisPoints := d |}).
    assert (Hv : valid_ComputedFees (computeFees f) = true).
    { apply valid_ComputedFees_spec. simpl. tauto. }
    exists f. split; [exact Hv|].
    destruct (ComputedFees_value_reads _ Hv) as (R1 & R2 & R3 & R4 & R5 & R6).
    cbn [computeFees ComputedFees.fees ComputedFees.totalBuyerFeeBasisPoints
         ComputedFees.totalSellerFeeBasisPoints
         OpenSeaFees.openseaSellerFeeBasisPoints
         OpenSeaFees.openseaBuyerFeeBasisPoints
         OpenSeaFees.devSellerFeeBasisPoints
         OpenSeaFees.devBuyerFeeBasisPoints f] in R1, R2, R3, R4, R5, R6.
    intros k Hk. simpl in Hk.
    destruct Hk as [<-|[<-|[<-|[<-|[<-|[<-|[]]]]]]]; congruence.
  - intros (f & Hv & Hk).
    pose proof (ComputedFees_value_reads _ Hv) as (R1 & R2 & R3 & R4 & R5 & R6).
    pose proof (proj1 (valid_ComputedFees_spec _) Hv)
      as (V1 & V2 & V3 & V4 & V5 & V6).
    cbn [computeFees ComputedFees.fees ComputedFees.totalBuyerFeeBasisPoints
       ComputedFees.totalSellerFeeBasisPoints] in R1, R2, R3, R4, R5, R6,
       V1, V2, V3, V4, V5, V6.
    unfold fees_invariant.
    rewrite !andb_true_iff. repeat split.
    + apply forallb_forall. intros k Hin. rewrite (Hk k Hin).
      simpl in Hin.
      destruct Hin as [<-|[<-|[<-|[<-|[<-|[<-|[]]]]]]];
      [rewrite R1|rewrite R2|rewrite R3|rewrite R4|rewrite R5|rewrite R6];
      simpl; apply andb_true_iff; rewrite !Z.leb_le; assumption.
    + rewrite !Hk by (simpl; tauto). rewrite R5, R2, R4. simpl. apply Z.eqb_refl.
    + rewrite !Hk by (simpl; tauto). rewrite R6, R1, R3. simpl. apply Z.eqb_refl.
Qed.

(** The parts being basis points does not make the totals basis points. *)
Lemma computeFees_total_out_of_range :
  valid_OpenSeaFees excessive_OpenSeaFees = true
  /\ valid_ComputedFees (computeFees excessive_OpenSeaFees) = false.
Proof. split; reflexivity. Qed.

(* ================================================================= *)
(** ** C7: [WyvernBundle] *)

Lemma traverse_map {A B : Type} (f : A -> option B) (g : B -> A) (l : list B) :
  (forall b, f (g b) = Some b) -> traverse f (map g l) = Some l.
Proof.
  intros Hfg. induction l as [|b l IH]; simpl; [reflexivity|].
  now rewrite Hfg, IH.
Qed.

Lemma asset_of_to_value (a : WyvernAsset) :
  asset_of_value (asset_to_value a) = Some a.
Proof. destruct a as [id address|[id|] address quantity]; reflexivity. Qed.

Lemma schema_of_to_value (x : WyvernSchemaName) :
  schema_of_value (schema_to_value x) = Some x.
Proof. destruct x; reflexivity. Qed.

Lemma bundleFromJSON_bundleToJSON (b : WyvernBundle.t) :
  bundleFromJSON (bundleToJSON b) = Some b.
Proof.
  destruct b as [assets schemas name description link].
  unfold bundleFromJSON, bundleToJSON. cbn [WyvernBundle.assets
    WyvernBundle.schemas WyvernBundle.name WyvernBundle.description
    WyvernBundle.external_link].
  change (lookup "assets" _) with (Some (VArr (map asset_to_value assets))).
  change (lookup "schemas" _) with (Some (VArr (map schema_to_value schemas))).
  cbn [bind array_of_value].
  rewrite (traverse_map _ _ _ asset_of_to_value).
  rewrite (traverse_map _ _ _ schema_of_to_value).
  destruct name, description, link; reflexivity.
Qed.

Lemma asset_to_value_typed (a : WyvernAsset) :
  has_type 4 (asset_to_value a) (Ref "WyvernAsset") = true.
Proof. destruct a as [id address|[id|] address quantity]; reflexivity. Qed.

Lemma schema_to_value_typed (x : WyvernSchemaName) :
  has_type 1 (schema_to_value x) (Ref "WyvernSchemaName") = true.
Proof. destruct x; reflexivity. Qed.

Lemma bundleToJSON_typed (b : WyvernBundle.t) :
  has_type 6 (bundleToJSON b) (Ref "WyvernBundle") = true.
Proof.
  apply (has_type_interface 5 _ "WyvernBundle" _ _ _ eq_refl eq_refl).
  eexists. split; [reflexivity|].
  destruct b as [assets schemas name description link].
  cbn [WyvernBundle.assets WyvernBundle.schemas WyvernBundle.name
       WyvernBundle.description WyvernBundle.external_link].
  assert (Ha : has_type 5 (VArr (map asset_to_value assets))
                 (TArray (Ref "WyvernAsset")) = true).
  { change (forallb (fun x => has_type 4 x (Ref "WyvernAsset"))
              (map asset_to_value assets) = true).
    apply forallb_forall. intros x Hx.
    apply in_map_iff in Hx as (a & <- & _). apply asset_to_value_typed. }
  assert (Hs : has_type 5 (VArr (map schema_to_value schemas))
                 (TArray (Ref "WyvernSchemaName")) = true).
  { change (forallb (fun x => has_type 4 x (Ref "WyvernSchemaName"))
              (map schema_to_value schemas) = true).
    apply forallb_forall. intros x Hx.
    apply in_map_iff in Hx as (a & <- & _).
    apply (has_type_le 1); [lia | apply schema_to_value_typed]. }
  change (inherit [] ?own) with own. cbn [forallb].
  rewrite !andb_true_iff. repeat split.
  - apply field_ok_required. eexists. split; [reflexivity | exact Ha].
  - apply field_ok_required. eexists. split; [reflexivity | exact Hs].
  - destruct name, description, link; reflexivity.
  - destruct name, description, link; reflexivity.
  - destruct name, description, link; reflexivity.
Qed.

(** A bundle of a token and a fungible amount, there and back. *)
Lemma example_bundle_round_trip :
  bundleToJSON example_bundle_record
  = VObj [ ("assets",
            VArr [ VObj [ ("id", VStr "1");
                          ("address",
                           VStr "0x06012c8cf97bead5deae237070f9587f8e7a266d") ];
                   VObj [ ("address",
                           VStr "0xc02aaa39b223fe8d0a0e5c4f27ead9083c756cc2");
                          ("quantity", VStr "1000") ] ]);
           ("schemas", VArr [ VStr "ERC721"; VStr "ERC20" ]);
           ("name", VStr "Kitty and change") ]
  /\ bundleFromJSON (bundleToJSON example_bundle_record)
     = Some example_bundle_record.
Proof. split; reflexivity. Qed.

(** C7, as the specification states it, fails: a value of type
    [WyvernBundle] may hold one asset and no schema. *)
Lemma bundle_lengths_may_differ :
  ~ (forall v o assets schemas,
       well_typed v (Ref "WyvernBundle") -> v = VObj o ->
       lookup "assets" o = Some (VArr assets) ->
       lookup "schemas" o = Some (VArr schemas) ->
       length assets = length schemas).
Proof.
  intros H.
  assert (E : length [ example_asset ] = length (@nil value)).
  { apply (H (VObj mismatched_bundle_fields) mismatched_bundle_fields);
      try reflexivity.
    exists 6%nat. vm_compute. reflexivity. }
  discriminate E.
Qed.

(** C7, amended.  [WyvernBundle] declares [assets] and [schemas] as two
    required arrays and does not relate their lengths.  Serializing a
    bundle gives a value of type [WyvernBundle], and deserializing that
    value gives the bundle back: both sequences have the lengths and the
    items they had, so the asset at index [i] is paired with the schema at
    index [i] as before. *)
Theorem bundle_round_trip (b : WyvernBundle.t) :
  signature_of (Ref "WyvernBundle") "assets"
  = Some (req "assets" (TArray (Ref "WyvernAsset")))
  /\ signature_of (Ref "WyvernBundle") "schemas"
     = Some (req "schemas" (TArray (Ref "WyvernSchemaName")))
  /\ well_typed (bundleToJSON b) (Ref "WyvernBundle")
  /\ exists b',
       bundleFromJSON (bundleToJSON b) = Some b'
       /\ length (WyvernBundle.assets b') = length (WyvernBundle.assets b)
       /\ length (WyvernBundle.schemas b') = length (WyvernBundle.schemas b)
       /\ forall i,
            nth_error (WyvernBundle.assets b') i
            = nth_error (WyvernBundle.assets b) i
            /\ nth_error (WyvernBundle.schemas b') i
               = nth_error (WyvernBundle.schemas b) i.
Proof.
  split; [reflexivity|]. split; [reflexivity|]. split.
  - exact (well_typed_at _ _ _ (bundleToJSON_typed b)).
  - exists b. split; [apply bundleFromJSON_bundleToJSON|]. repeat split.
Qed.

(* ================================================================= *)
(** ** C8: [Web3Callback] *)

Lemma call_signature_Web3Callback (T : ty) :
  call_signature (Web3Callback T)
  = Some ([ ("err", TUnion TError TNull); ("result", T) ], TVoid).
Proof. reflexivity. Qed.

Lemma has_type_error_or_null n v :
  has_type n v (TUnion TError TNull) = true ->
  v = VNull \/ exists message, v = VError message.
Proof.
  intros H. apply has_type_union in H as (m & -> & [H|H]);
    (destruct m; [discriminate|]); destruct v; try discriminate.
  - right. now eexists.
  - now left.
Qed.

(** C8, amended.  A handler of type [Web3Callback<T>] is invoked with
    exactly two arguments: the first is [null] or an [Error], the second
    conforms to [T].  The type does not tie the second to the first. *)
Theorem Web3Callback_invocations (T : ty) (args : list value) :
  accepts (Web3Callback T) args <->
  exists err result,
    args = [ err; result ]
    /\ (err = VNull \/ exists message, err = VError message)
    /\ well_typed result T.
Proof.
  unfold accepts, call_ok. rewrite call_signature_Web3Callback. split.
  - intros [n H]. destruct args as [|e [|r [|x args]]]; try discriminate.
    simpl in H. rewrite andb_true_r, andb_true_iff in H. destruct H as [He Hr].
    exists e, r. split; [reflexivity|]. split.
    + eapply has_type_error_or_null, He.
    + now exists n.
  - intros (e & r & -> & He & [n Hr]). exists (S (S n)).
    change (has_type (S (S n)) e (TUnion TError TNull)
            && (has_type (S (S n)) r T && true) = true).
    rewrite andb_true_r. apply andb_true_iff. split.
    + destruct He as [->|[m ->]]; reflexivity.
    + apply (has_type_le n); [lia | exact Hr].
Qed.

(** C8, as the specification states it, fails: the handler type accepts an
    invocation with an error and a result of type [T] together. *)
Lemma callback_accepts_error_with_result :
  ~ (forall T err result,
       accepts (Web3Callback T) [ err; result ] ->
       (err <> VNull /\ ~ well_typed result T)
       \/ (err = VNull /\ well_typed result T)).
Proof.
  intros H.
  destruct (H TString (VError "execution reverted") (VStr "0x5c50")) as [[_ Hn]|[He _]].
  - exists 2%nat. vm_compute. reflexivity.
  - apply Hn. exists 1%nat. reflexivity.
  - discriminate He.
Qed.

(* ================================================================= *)
(** ** C9: [RawWyvernOrderJSON] *)

(** C9. [RawWyvernOrderJSON] has exactly the properties of [OrderJSON]
    whose name is not one of [makerReferrerFee], [quantity],
    [englishAuctionReservePrice], [createdTime], [metadata], [hash], [v],
    [r], [s]; each keeps its name, optionality and type; and [OrderJSON]
    has no property [hash], so omitting it removes nothing. *)
Theorem RawWyvernOrderJSON_properties :
  omitted_keys
  = [ "makerReferrerFee"; "quantity"; "englishAuctionReservePrice";
      "createdTime"; "metadata"; "hash"; "v"; "r"; "s" ]
  /\ properties (Ref "RawWyvernOrderJSON")
     = Some [ req "exchange" TString;
              req "maker" TString;
              req "taker" TString;
              req "makerRelayerFee" TString;
              req "takerRelayerFee" TString;
              req "makerProtocolFee" TString;
              req "takerProtocolFee" TString;
              req "feeRecipient" TString;
              req "feeMethod" TNumber;
              req "side" TNumber;
              req "saleKind" TNumber;
              req "target" TString;
              req "howToCall" TNumber;
              req "calldata" TString;
              req "replacementPattern" TString;
              req "staticTarget" TString;
              req "staticExtradata" TString;
              req "paymentToken" TString;
              req "basePrice" TString;
              req "extra" TString;
              req "listingTime" (TUnion TNumber TString);
              req "expirationTime" (TUnion TNumber TString);
              req "salt" TString;
              opt "nonce" TNumber ]
  /\ (forall f : field,
        (exists raw, properties (Ref "RawWyvernOrderJSON") = Some raw
                     /\ In f raw)
        <->
        (exists oj, properties (Ref "OrderJSON") = Some oj /\ In f oj)
        /\ ~ In (fname f) omitted_keys)
  /\ signature_of (Ref "OrderJSON") "hash" = None.
Proof.
  split; [reflexivity|]. split; [reflexivity|]. split; [|reflexivity].
  intros f.
  assert (Hraw : exists oj,
             properties (Ref "OrderJSON") = Some oj
             /\ properties (Ref "RawWyvernOrderJSON")
                = Some (omit omitted_keys oj)).
  { eexists. split; reflexivity. }
  destruct Hraw as (oj0 & Hoj & Hraw). rewrite Hoj, Hraw. clear Hoj Hraw.
  unfold omit. split.
  - intros (raw & [= <-] & Hin). apply filter_In in Hin as [Hin Hk]. split.
    + eexists. split; [reflexivity | exact Hin].
    + intros Hmem. apply negb_true_iff in Hk. unfold mem in Hk.
      assert (existsb (String.eqb (fname f)) omitted_keys = true) as E.
      { apply existsb_exists. exists (fname f). split; [easy|].
        apply String.eqb_refl. }
      exact (eq_true_false_abs _ E Hk).
  - intros [(oj & [= <-] & Hin) Hk]. eexists. split; [reflexivity|].
    apply filter_In. split; [exact Hin|]. apply negb_true_iff.
    destruct (mem (fname f) omitted_keys) eqn:E; [|reflexivity].
    exfalso. apply Hk. unfold mem in E. apply existsb_exists in E as (k & Hk' & E).
    apply String.eqb_eq in E. now subst k.
Qed.

(* ================================================================= *)
(** ** C10: [englishAuctionReservePrice] *)

(** C10. In [OrderJSON] the property [englishAuctionReservePrice] is
    required with type [string | undefined]; in [UnhashedOrder] it is an
    optional [BigNumber].  So every value of type [OrderJSON] has the key,
    holding a string or [undefined], while an [UnhashedOrder] may lack it. *)
Theorem englishAuctionReservePrice_key_mandatory :
  signature_of (Ref "OrderJSON") "englishAuctionReservePrice"
  = Some (req "englishAuctionReservePrice" (TUnion TString TUndefined))
  /\ signature_of (Ref "UnhashedOrder") "englishAuctionReservePrice"
     = Some (opt "englishAuctionReservePrice" TBigNumber)
  /\ (forall v, well_typed v (Ref "OrderJSON") ->
        exists o x, v = VObj o
          /\ lookup "englishAuctionReservePrice" o = Some x
          /\ (is_string x \/ x = VUndefined))
  /\ (well_typed example_unhashed_order (Ref "UnhashedOrder")
      /\ lookup "englishAuctionReservePrice" example_unhashed_order_fields
         = None).
Proof.
  split; [reflexivity|]. split; [reflexivity|]. split.
  - intros v [n H]. destruct n as [|n]; [discriminate|].
    eapply (required_property n v "OrderJSON" _ _
              "englishAuctionReservePrice" (TUnion TString TUndefined))
      in H as (o & x & -> & Hx & H); [| reflexivity | reflexivity].
    exists o, x. split; [easy|]. split; [easy|].
    apply has_type_union in H as (m & _ & [H|H]).
    + left. eapply has_type_string, H.
    + right. eapply has_type_undefined, H.
  - split; [|reflexivity]. exact (well_typed_at _ _ _ example_unhashed_order_typed).
Qed.

Lemma englishAuctionReservePrice_key_mandatory_witness :
  exists o x, example_order_json = VObj o
    /\ lookup "englishAuctionReservePrice" o = Some x
    /\ (is_string x \/ x = VUndefined).
Proof.
  apply (proj1 (proj2 (proj2 englishAuctionReservePrice_key_mandatory))).
  exists 8%nat. vm_compute. reflexivity.
Defined.

(* ================================================================= *)
(** ** Further properties of the declarations: general facts *)

Lemma lookup_In {A : Type} (k : string) (l : list (string * A)) (d : A) :
  lookup k l = Some d -> In (k, d) l.
Proof.
  unfold lookup. destruct (find _ l) as [[k' d']|] eqn:E; [|discriminate].
  intros [= <-]. apply find_some in E as [Hin Hk]. simpl in Hk.
  apply String.eqb_eq in Hk. now subst k'.
Qed.

Lemma properties_upto_Ref n name args :
  properties_upto (S n) (TRef name args)
  = match lookup name declarations with
    | Some (DInterface exts own _) =>
        match collect (map (properties_upto n) exts) with
        | Some inherited => Some (inherit inherited own)
        | None => None
        end
    | Some (DAlias ps body) => properties_upto n (subst (combine ps args) body)
    | _ => None
    end.
Proof. reflexivity. Qed.

Lemma interface_fields n v name exts own fs :
  lookup name declarations = Some (DInterface exts own None) ->
  properties (Ref name) = Some fs ->
  has_type (S n) v (Ref name) = true ->
  exists o, v = VObj o /\ forall f, In f fs -> field_ok (has_type n) o f = true.
Proof.
  intros Hd Hp H.
  apply (has_type_interface _ _ _ _ _ _ Hd Hp) in H as (o & -> & H).
  exists o. split; [reflexivity|]. now apply forallb_forall.
Qed.

Lemma has_type_partial_object n t fs o :
  properties (TPartial t) = Some fs ->
  (forall f, In f fs -> field_ok (has_type n) o f = true) ->
  has_type (S n) (VObj o) (TPartial t) = true.
Proof.
  intros Hp H. change (object_ok (has_type n) (VObj o) (TPartial t) = true).
  unfold object_ok. rewrite Hp. now apply forallb_forall.
Qed.

Lemma field_ok_weaken chk o k t :
  field_ok chk o (req k t) = true -> field_ok chk o (opt k t) = true.
Proof.
  unfold field_ok. simpl. destruct (lookup k o); [|discriminate].
  now rewrite !orb_false_r, orb_true_iff; left.
Qed.

Lemma field_ok_type (chk : value -> ty -> bool) o k b t t' :
  (forall x, chk x t = true -> chk x t' = true) ->
  field_ok chk o (mkField k b t) = true ->
  field_ok chk o (mkField k b t') = true.
Proof.
  intros Ht. unfold field_ok. simpl. destruct (lookup k o); [|easy].
  rewrite !orb_true_iff. intros [H|H]; auto.
Qed.

Lemma has_type_enum_number n x name members :
  lookup name declarations = Some (DEnumNum members) ->
  has_type n x (Ref name) = true -> has_type n x TNumber = true.
Proof.
  intros Hd. destruct n as [|n]; [discriminate|]. simpl. rewrite Hd.
  now destruct x.
Qed.

Lemma well_typed_union v a b :
  well_typed v (TUnion a b) <-> well_typed v a \/ well_typed v b.
Proof.
  split.
  - intros [n H]. apply has_type_union in H as (m & _ & [H|H]);
      [left | right]; now exists m.
  - intros [[n H]|[n H]]; exists (S n); simpl; rewrite H;
      [reflexivity | apply orb_true_r].
Qed.

Lemma Forall_well_typed_depth (l : list value) (t : ty) :
  Forall (fun x => well_typed x t) l ->
  exists n, Forall (fun x => has_type n x t = true) l.
Proof.
  induction 1 as [|x l [n Hn] _ [m Hm]].
  - exists 0%nat. constructor.
  - exists (Nat.max n m). constructor.
    + apply (has_type_le n); [lia | exact Hn].
    + revert Hm. apply Forall_impl. intros y. apply has_type_le. lia.
Qed.

Lemma well_typed_array v e :
  well_typed v (TArray e) <->
  exists items, v = VArr items /\ Forall (fun x => well_typed x e) items.
Proof.
  split.
  - intros [n H]. destruct n as [|n]; [discriminate|]. simpl in H.
    destruct v; try discriminate. exists items. split; [reflexivity|].
    apply Forall_forall. intros x Hx. rewrite forallb_forall in H.
    exists n. now apply H.
  - intros (items & -> & H). apply Forall_well_typed_depth in H as [n H].
    exists (S n). simpl. apply forallb_forall. now apply Forall_forall.
Qed.

Lemma distinct_NoDup l : distinct l = true -> NoDup l.
Proof.
  induction l as [|k l IH]; simpl; [constructor|].
  rewrite andb_true_iff, negb_true_iff. intros [Hk Hl]. constructor; auto.
  intros Hin. unfold mem in Hk.
  assert (existsb (String.eqb k) l = true) as E.
  { apply existsb_exists. exists k. split; [easy | apply String.eqb_refl]. }
  congruence.
Qed.

Lemma lookup_remove_key k k' o :
  lookup k' (remove_key k o) = if String.eqb k k' then None else lookup k' o.
Proof.
  unfold lookup, remove_key. induction o as [|[j x] o IH]; simpl.
  - now destruct (String.eqb k k').
  - destruct (String.eqb_spec k j) as [<-|Hkj]; simpl.
    + rewrite IH. rewrite (String.eqb_sym k' k).
      now destruct (String.eqb k k').
    + destruct (String.eqb_spec k' j) as [->|Hk'j].
      * destruct (String.eqb_spec k j); [contradiction | reflexivity].
      * exact IH.
Qed.

Ltac in_list := solve [simpl; repeat (first [left; reflexivity | right])].

Ltac properties_of t :=
  let fs := eval vm_compute in (properties t) in
  assert (properties t = fs) by (vm_compute; reflexivity).

(** Every signature of the wider type follows from the signature of the
    same name in the narrower one: the same signature, or a required one
    for an optional one; [tac] settles what is left. *)
Ltac narrow_fields H tac :=
  intros g Hg; simpl in Hg;
  repeat (destruct Hg as [<-|Hg];
          [first [ apply H; in_list
                 | apply field_ok_weaken, H; in_list
                 | tac ]|]);
  try contradiction.

Ltac narrow_to_interface sub super tac :=
  let n := fresh "n" in let H := fresh "H" in let o := fresh "o" in
  intros [n H]; destruct n as [|n]; [discriminate|];
  properties_of (Ref sub); properties_of (Ref super);
  eapply (interface_fields n _ sub) in H as (o & -> & H);
    [| reflexivity | eassumption];
  exists (S n); eapply (has_type_object n super); [reflexivity | eassumption |];
  narrow_fields H tac.

Ltac narrow_to_partial sub super tac :=
  let n := fresh "n" in let H := fresh "H" in let o := fresh "o" in
  intros [n H]; destruct n as [|n]; [discriminate|];
  properties_of (Ref sub); properties_of (TPartial (Ref super));
  eapply (interface_fields n _ sub) in H as (o & -> & H);
    [| reflexivity | eassumption];
  exists (S n); eapply has_type_partial_object; [eassumption|];
  narrow_fields H tac.

(* ================================================================= *)
(** ** Heritage: every [extends] clause is honoured *)

Lemma OpenSeaAssetContract_is_OpenSeaFees v :
  well_typed v (Ref "OpenSeaAssetContract") -> well_typed v (Ref "OpenSeaFees").
Proof. narrow_to_interface "OpenSeaAssetContract" "OpenSeaFees" fail. Qed.

Lemma OpenSeaCollection_is_OpenSeaFees v :
  well_typed v (Ref "OpenSeaCollection") -> well_typed v (Ref "OpenSeaFees").
Proof. narrow_to_interface "OpenSeaCollection" "OpenSeaFees" fail. Qed.

Lemma OpenSeaAsset_is_Asset v :
  well_typed v (Ref "OpenSeaAsset") -> well_typed v (Ref "Asset").
Proof. narrow_to_interface "OpenSeaAsset" "Asset" fail. Qed.

Lemma ComputedFees_is_OpenSeaFees v :
  well_typed v (Ref "ComputedFees") -> well_typed v (Ref "OpenSeaFees").
Proof. narrow_to_interface "ComputedFees" "OpenSeaFees" fail. Qed.

Lemma UnsignedOrder_is_UnhashedOrder v :
  well_typed v (Ref "UnsignedOrder") -> well_typed v (Ref "UnhashedOrder").
Proof. narrow_to_interface "UnsignedOrder" "UnhashedOrder" fail. Qed.

Lemma Order_is_UnsignedOrder v :
  well_typed v (Ref "Order") -> well_typed v (Ref "UnsignedOrder").
Proof. narrow_to_interface "Order" "UnsignedOrder" fail. Qed.

Lemma Order_is_partial_ECSignature v :
  well_typed v (Ref "Order") -> well_typed v (TPartial (Ref "ECSignature")).
Proof. narrow_to_partial "Order" "ECSignature" fail. Qed.

Lemma OrderJSON_is_partial_ECSignature v :
  well_typed v (Ref "OrderJSON") -> well_typed v (TPartial (Ref "ECSignature")).
Proof. narrow_to_partial "OrderJSON" "ECSignature" fail. Qed.

Lemma OpenSeaAssetBundleQuery_is_partial v :
  well_typed v (Ref "OpenSeaAssetBundleQuery") ->
  well_typed v (TPartial (Ref "OpenSeaAssetBundleJSON")).
Proof.
  narrow_to_partial "OpenSeaAssetBundleQuery" "OpenSeaAssetBundleJSON" fail.
Qed.

Lemma OpenSeaFungibleTokenQuery_is_partial v :
  well_typed v (Ref "OpenSeaFungibleTokenQuery") ->
  well_typed v (TPartial (Ref "OpenSeaFungibleToken")).
Proof.
  narrow_to_partial "OpenSeaFungibleTokenQuery" "OpenSeaFungibleToken" fail.
Qed.

(** [OrderQuery] declares [side] again, as [OrderSide] where
    [Partial<OrderJSON>] has [number]: a member of [OrderSide] is a number. *)
Lemma OrderQuery_is_partial_OrderJSON v :
  well_typed v (Ref "OrderQuery") -> well_typed v (TPartial (Ref "OrderJSON")).
Proof.
  narrow_to_partial "OrderQuery" "OrderJSON"
    ltac:(apply (field_ok_type _ _ _ _ (Ref "OrderSide"));
          [ intros x; apply (has_type_enum_number _ _ "OrderSide" _ eq_refl)
          | match goal with
            | H : forall f, In f _ -> _ |- _ => apply H; in_list
            end ]).
Qed.

(** X1.  Whatever interface of the file a value belongs to, it belongs to
    every type the interface extends: [Partial<...>] heritage included, and
    also where the interface declares an inherited property again
    ([name] in [OpenSeaAsset], [side] in [OrderQuery], [symbol] in
    [OpenSeaFungibleTokenQuery]). *)
Theorem heritage_is_honoured name exts own index super v :
  lookup name declarations = Some (DInterface exts own index) ->
  In super exts ->
  well_typed v (Ref name) -> well_typed v super.
Proof.
  intros Hd Hs. apply lookup_In in Hd. unfold declarations in Hd.
  simpl In in Hd.
  repeat (destruct Hd as [Hd|Hd];
    [ first [ discriminate Hd
            | injection Hd as <- <- <- <-; simpl in Hs;
              repeat (destruct Hs as [<-|Hs]); try contradiction ] |]).
  all: try contradiction.
  - apply OpenSeaAssetContract_is_OpenSeaFees.
  - apply OpenSeaCollection_is_OpenSeaFees.
  - apply OpenSeaAsset_is_Asset.
  - apply OpenSeaAssetBundleQuery_is_partial.
  - apply ComputedFees_is_OpenSeaFees.
  - apply UnsignedOrder_is_UnhashedOrder.
  - apply Order_is_UnsignedOrder.
  - apply Order_is_partial_ECSignature.
  - apply OrderJSON_is_partial_ECSignature.
  - apply OrderQuery_is_partial_OrderJSON.
  - apply OpenSeaFungibleTokenQuery_is_partial.
Qed.

Lemma heritage_is_honoured_witness :
  well_typed (example_order true true true) (TPartial (Ref "ECSignature")).
Proof.
  apply (heritage_is_honoured "Order"
           [ Ref "UnsignedOrder"; TPartial (Ref "ECSignature") ]
           (own_of Decl.Order) None).
  - reflexivity.
  - simpl. tauto.
  - exists 8%nat. vm_compute. reflexivity.
Defined.

(* ================================================================= *)
(** ** Enums *)

Lemma values_differ_sound (l : list (string * value)) :
  values_differ l = true ->
  forall m1 v1 m2 v2,
    In (m1, v1) l -> In (m2, v2) l -> same_value v1 v2 = true -> m1 = m2.
Proof.
  induction l as [|p l IH]; simpl; [contradiction|].
  rewrite andb_true_iff, forallb_forall. intros [Hp Hl] m1 v1 m2 v2 H1 H2 E.
  destruct H1 as [->|H1], H2 as [H2|H2].
  - now injection H2.
  - specialize (Hp _ H2). simpl in Hp. rewrite E in Hp. discriminate Hp.
  - subst p. specialize (Hp _ H1). simpl in Hp. rewrite E in Hp.
    rewrite andb_false_r in Hp. discriminate Hp.
  - exact (IH Hl _ _ _ _ H1 H2 E).
Qed.

Lemma enum_value_In e members m v :
  enum_members e = Some members -> enum_value e m = Some v ->
  In (m, v) members.
Proof.
  unfold enum_members, enum_value.
  destruct (lookup e declarations) as [[ms|ms| |]|]; try discriminate;
    intros [= <-]; destruct (lookup m ms) as [x|] eqn:Hm; try discriminate;
    intros [= <-]; apply lookup_In in Hm.
  - exact (in_map (fun p => (fst p, VStr (snd p))) _ _ Hm).
  - exact (in_map (fun p => (fst p, VNum (snd p))) _ _ Hm).
Qed.

Lemma enum_member_In e members v m :
  enum_members e = Some members -> enum_member e v = Some m ->
  exists v', In (m, v') members /\ same_value v v' = true.
Proof.
  unfold enum_members, enum_member.
  destruct (lookup e declarations) as [[ms|ms| |]|]; try discriminate;
    intros [= <-]; destruct v; try discriminate;
    match goal with
    | |- option_map fst (find ?f ms) = _ -> _ =>
        destruct (find f ms) as [p|] eqn:Hp; [|discriminate];
        intros [= <-]; apply find_some in Hp as [Hin Hp]
    end.
  - exists (VStr (snd p)). split; [|exact Hp].
    exact (in_map (fun p => (fst p, VStr (snd p))) _ _ Hin).
  - exists (VNum (snd p)). split; [|exact Hp].
    exact (in_map (fun p => (fst p, VNum (snd p))) _ _ Hin).
Qed.

(** X2.  In every enum of the file no two members share a name and no two
    members share a value.  The value of a member leads back to exactly
    that member and is a value of the enum type, and nothing but a member's
    value is decoded to a member: decoding a wire value is unambiguous. *)
Theorem enum_members_are_distinct e members :
  enum_members e = Some members ->
  NoDup (map fst members)
  /\ (forall m1 v1 m2 v2,
        In (m1, v1) members -> In (m2, v2) members ->
        same_value v1 v2 = true -> m1 = m2)
  /\ (forall m v,
        In (m, v) members <-> enum_value e m = Some v)
  /\ (forall m v,
        enum_value e m = Some v ->
        enum_member e v = Some m /\ well_typed v (Ref e))
  /\ (forall v m,
        enum_member e v = Some m ->
        exists v', enum_value e m = Some v' /\ same_value v v' = true).
Proof.
  intros He.
  assert (Hall : distinct (map fst members) = true
                 /\ values_differ members = true
                 /\ forall m v, In (m, v) members ->
                      enum_value e m = Some v
                      /\ enum_member e v = Some m /\ well_typed v (Ref e)).
  { revert He. unfold enum_members.
    destruct (lookup e declarations) as [d|] eqn:Hd; [|discriminate].
    apply lookup_In in Hd. unfold declarations in Hd. simpl In in Hd.
    repeat (destruct Hd as [Hd|Hd];
      [ injection Hd as <- <-;
        try discriminate;
        cbv delta [Decl.EventType Decl.Network Decl.OrderSide Decl.FeeMethod
          Decl.SaleKind Decl.AssetContractType Decl.WyvernSchemaName
          Decl.TokenStandardVersion Decl.AuctionType Decl.AssetEventType
          Decl.HowToCall Decl.AbiType Decl.FunctionInputKind
          Decl.FunctionOutputKind Decl.StateMutability Decl.SolidityTypes]
          beta iota |]).
    all: try contradiction.
    all: intros [= <-]; split; [vm_compute; reflexivity|];
         split; [vm_compute; reflexivity|];
         intros m v Hm; simpl in Hm;
         repeat (destruct Hm as [Hm|Hm];
                 [ injection Hm as <- <-;
                   split; [vm_compute; reflexivity|];
                   split; [ vm_compute; reflexivity
                          | exists 1%nat; vm_compute; reflexivity ] |]);
         contradiction. }
  destruct Hall as (Hnames & Hvalues & Hmembers).
  split; [now apply distinct_NoDup|].
  split; [exact (values_differ_sound _ Hvalues)|].
  split; [|split].
  - intros m v. split; [apply Hmembers | exact (enum_value_In _ _ _ _ He)].
  - intros m v Hv. apply Hmembers. exact (enum_value_In _ _ _ _ He Hv).
  - intros v m Hm.
    destruct (enum_member_In _ _ _ _ He Hm) as (v' & Hin & Hsame).
    exists v'. split; [apply Hmembers, Hin | exact Hsame].
Qed.

Lemma enum_members_are_distinct_witness :
  enum_members "TokenStandardVersion"
  = Some [ ("Unsupported", VStr "unsupported"); ("Locked", VStr "locked");
           ("Enjin", VStr "1155-1.0"); ("ERC721v1", VStr "1.0");
           ("ERC721v2", VStr "2.0"); ("ERC721v3", VStr "3.0") ]
  /\ enum_member "TokenStandardVersion" (VStr "1155-1.0") = Some "Enjin"
  /\ well_typed (VStr "1155-1.0") (Ref "TokenStandardVersion").
Proof.
  split; [reflexivity|].
  apply (enum_members_are_distinct "TokenStandardVersion" _ eq_refl).
  reflexivity.
Defined.

(* ================================================================= *)
(** ** Property names *)

(** X3.  The property list of every object type of the file names each
    property once: a signature declared again replaces the inherited one,
    and the types an interface extends declare no property twice. *)
Theorem property_names_are_distinct name fs :
  properties (Ref name) = Some fs -> NoDup (names fs).
Proof.
  unfold properties. rewrite properties_upto_Ref.
  destruct (lookup name declarations) as [d|] eqn:Hd; [|discriminate].
  apply lookup_In in Hd. unfold declarations in Hd. simpl In in Hd.
  repeat (destruct Hd as [Hd|Hd];
    [ injection Hd as <- <-; intros H; vm_compute in H;
      first [ discriminate H
            | injection H as <-; apply distinct_NoDup; vm_compute;
              reflexivity ] |]).
  contradiction.
Qed.

Lemma property_names_are_distinct_witness :
  NoDup (names (omit (names (own_of Decl.OrderQuery))
                  (partial (partial (own_of Decl.ECSignature)
                            ++ own_of Decl.OrderJSON))
                ++ own_of Decl.OrderQuery)).
Proof. apply (property_names_are_distinct "OrderQuery"). reflexivity. Defined.

(* ================================================================= *)
(** ** Orders carried by events and by orderbook responses *)

(** X4.  The order an event carries under [order], [buy] or [sell], when
    it is there and defined, is an [UnsignedOrder]: [Order | UnsignedOrder]
    holds nothing that [UnsignedOrder] does not hold, so a handler may read
    the payload without the signature and has to allow for a missing
    [hash]. *)
Theorem event_orders_are_unsigned (v : value) (o : list (string * value))
    (k : string) (x : value) :
  well_typed v (Ref "EventData") -> v = VObj o ->
  In k [ "order"; "buy"; "sell" ] -> lookup k o = Some x ->
  x = VUndefined \/ well_typed x (Ref "UnsignedOrder").
Proof.
  intros [n H] -> Hk Hx. destruct n as [|n]; [discriminate|].
  assert (Ht : exists t,
             signature_of (Ref "EventData") k = Some (opt k t)
             /\ (t = Ref "Order"
                 \/ t = TUnion (Ref "Order") (Ref "UnsignedOrder"))).
  { simpl in Hk. destruct Hk as [<-|[<-|[<-|[]]]]; eexists;
      (split; [reflexivity|]); tauto. }
  destruct Ht as (t & Hs & Ht).
  eapply (optional_property n (VObj o) "EventData") in H as (o' & [= <-] & H);
    [| reflexivity | exact Hs].
  destruct (H x Hx) as [Hx'| ->]; [|now left]. right.
  assert (Hw : well_typed x t) by now exists n.
  destruct Ht as [-> | ->].
  - now apply Order_is_UnsignedOrder.
  - apply well_typed_union in Hw as [Hw|Hw]; [|exact Hw].
    now apply Order_is_UnsignedOrder.
Qed.

Lemma event_orders_are_unsigned_witness :
  example_order false false false = VUndefined
  \/ well_typed (example_order false false false) (Ref "UnsignedOrder").
Proof.
  apply (event_orders_are_unsigned (VObj example_event) example_event "order").
  - exists 10%nat. vm_compute. reflexivity.
  - reflexivity.
  - simpl. tauto.
  - reflexivity.
Defined.

(** X5.  A value is an [OrderbookResponse] exactly when it holds an array
    of [OrderJSON] values under [orders] and a number under [count]; the
    two are not tied, [count] may differ from the number of orders.  Each
    order of a response has a string [basePrice], a numeric [side] and the
    key [englishAuctionReservePrice]. *)
Theorem OrderbookResponse_values (v : value) :
  (well_typed v (Ref "OrderbookResponse") <->
   exists o orders count,
     v = VObj o
     /\ lookup "orders" o = Some (VArr orders)
     /\ Forall (fun x => well_typed x (Ref "OrderJSON")) orders
     /\ lookup "count" o = Some (VNum count))
  /\ (forall o orders x,
        well_typed v (Ref "OrderbookResponse") -> v = VObj o ->
        lookup "orders" o = Some (VArr orders) -> In x orders ->
        exists fields price side reserve,
          x = VObj fields
          /\ lookup "basePrice" fields = Some (VStr price)
          /\ lookup "side" fields = Some (VNum side)
          /\ lookup "englishAuctionReservePrice" fields = Some reserve).
Proof.
  assert (Hiff : well_typed v (Ref "OrderbookResponse") <->
            exists o orders count,
              v = VObj o
              /\ lookup "orders" o = Some (VArr orders)
              /\ Forall (fun x => well_typed x (Ref "OrderJSON")) orders
              /\ lookup "count" o = Some (VNum count)).
  { split.
    - intros [n H]. destruct n as [|n]; [discriminate|].
      pose proof H as H'.
      eapply (required_property n v "OrderbookResponse" _ _ "orders"
                (TArray (Ref "OrderJSON")))
        in H as (o & x & -> & Hx & Ht); [| reflexivity | reflexivity].
      eapply (required_property n _ "OrderbookResponse" _ _ "count" TNumber)
        in H' as (o' & c & [= <-] & Hc & Htc); [| reflexivity | reflexivity].
      apply has_type_number in Htc as [count ->].
      assert (Hw : well_typed x (TArray (Ref "OrderJSON"))) by now exists n.
      apply well_typed_array in Hw as (orders & -> & Hall).
      now exists o, orders, count.
    - intros (o & orders & count & -> & Ho & Hall & Hc).
      assert (Hw : well_typed (VArr orders) (TArray (Ref "OrderJSON"))).
      { apply well_typed_array. now exists orders. }
      destruct Hw as [n Hn]. exists (S (S n)).
      apply (has_type_object _ "OrderbookResponse" _ _ _ _ eq_refl eq_refl).
      intros f [<-|[<-|[]]]; apply field_ok_required.
      + exists (VArr orders). split; [exact Ho|].
        apply (has_type_le n); [lia | exact Hn].
      + exists (VNum count). split; [exact Hc | reflexivity]. }
  split; [exact Hiff|].
  intros o orders x Hv -> Ho Hx.
  apply Hiff in Hv as (o' & orders' & count & [= <-] & Ho' & Hall & _).
  rewrite Ho in Ho'. injection Ho' as <-.
  rewrite Forall_forall in Hall. destruct (Hall x Hx) as [n H].
  destruct n as [|n]; [discriminate|].
  pose proof H as H1. pose proof H as H2.
  eapply (required_property n x "OrderJSON" _ _ "basePrice" TString)
    in H as (fields & p & -> & Hp & Htp); [| reflexivity | reflexivity].
  eapply (required_property n _ "OrderJSON" _ _ "side" TNumber)
    in H1 as (f1 & s & [= <-] & Hs & Hts); [| reflexivity | reflexivity].
  eapply (required_property n _ "OrderJSON" _ _ "englishAuctionReservePrice"
            (TUnion TString TUndefined))
    in H2 as (f2 & r & [= <-] & Hr & _); [| reflexivity | reflexivity].
  apply has_type_string in Htp as [price ->].
  apply has_type_number in Hts as [side ->].
  now exists fields, price, side, r.
Qed.

Lemma OrderbookResponse_values_witness :
  exists fields price side reserve,
    example_order_json = VObj fields
    /\ lookup "basePrice" fields = Some (VStr price)
    /\ lookup "side" fields = Some (VNum side)
    /\ lookup "englishAuctionReservePrice" fields = Some reserve.
Proof.
  apply (proj2 (OrderbookResponse_values (VObj example_response))
           example_response [ example_order_json ]).
  - exists 10%nat. vm_compute. reflexivity.
  - reflexivity.
  - reflexivity.
  - simpl. tauto.
Defined.

(* ================================================================= *)
(** ** [WyvernAsset] *)

(** X6.  A value is a [WyvernAsset] exactly when it is an object with a
    string [address] and either a string [id], or a string [quantity]
    with [id] missing or undefined.  The two members of the union overlap:
    an object with string [id], [address] and [quantity] is a
    [WyvernNFTAsset] and a [WyvernFTAsset] at once. *)
Theorem WyvernAsset_values (v : value) :
  (well_typed v (Ref "WyvernAsset") <->
   exists o address,
     v = VObj o
     /\ lookup "address" o = Some (VStr address)
     /\ ((exists id, lookup "id" o = Some (VStr id))
         \/ ((exists quantity, lookup "quantity" o = Some (VStr quantity))
             /\ (lookup "id" o = None \/ lookup "id" o = Some VUndefined))))
  /\ (forall o id address quantity,
        v = VObj o ->
        lookup "id" o = Some (VStr id) ->
        lookup "address" o = Some (VStr address) ->
        lookup "quantity" o = Some (VStr quantity) ->
        well_typed v (Ref "WyvernNFTAsset")
        /\ well_typed v (Ref "WyvernFTAsset")).
Proof.
  assert (Hnft : forall o id address,
             lookup "id" o = Some (VStr id) ->
             lookup "address" o = Some (VStr address) ->
             well_typed (VObj o) (Ref "WyvernNFTAsset")).
  { intros o id address Hi Ha. exists 2%nat.
    apply (has_type_object _ "WyvernNFTAsset" _ _ _ _ eq_refl eq_refl).
    intros f [<-|[<-|[]]]; apply field_ok_required; eexists;
      (split; [eassumption | reflexivity]). }
  assert (Hft : forall o x address quantity,
             (lookup "id" o = None \/ lookup "id" o = Some VUndefined
              \/ lookup "id" o = Some (VStr x)) ->
             lookup "address" o = Some (VStr address) ->
             lookup "quantity" o = Some (VStr quantity) ->
             well_typed (VObj o) (Ref "WyvernFTAsset")).
  { intros o x address quantity Hi Ha Hq. exists 2%nat.
    apply (has_type_object _ "WyvernFTAsset" _ _ _ _ eq_refl eq_refl).
    intros f [<-|[<-|[<-|[]]]].
    - apply field_ok_optional. destruct Hi as [Hi|[Hi|Hi]]; [now left | |];
        right; eexists; (split; [exact Hi|]); [now right | now left].
    - apply field_ok_required. eexists. split; [exact Ha | reflexivity].
    - apply field_ok_required. eexists. split; [exact Hq | reflexivity]. }
  split.
  - rewrite (well_typed_alias v "WyvernAsset" _ eq_refl), well_typed_union.
    split.
    + intros [[n H]|[n H]]; (destruct n as [|n]; [discriminate|]).
      * pose proof H as H'.
        eapply (required_property n v "WyvernNFTAsset" _ _ "id" TString)
          in H as (o & i & -> & Hi & Hti); [| reflexivity | reflexivity].
        eapply (required_property n _ "WyvernNFTAsset" _ _ "address" TString)
          in H' as (o' & a & [= <-] & Ha & Hta); [| reflexivity | reflexivity].
        apply has_type_string in Hti as [id ->].
        apply has_type_string in Hta as [address ->].
        exists o, address. repeat split; try easy. left. now exists id.
      * pose proof H as H1. pose proof H as H2.
        eapply (required_property n v "WyvernFTAsset" _ _ "address" TString)
          in H as (o & a & -> & Ha & Hta); [| reflexivity | reflexivity].
        eapply (required_property n _ "WyvernFTAsset" _ _ "quantity" TString)
          in H1 as (o' & q & [= <-] & Hq & Htq); [| reflexivity | reflexivity].
        eapply (optional_property n (VObj o) "WyvernFTAsset" _ _ "id" TString)
          in H2 as (o' & [= <-] & Hi); [| reflexivity | reflexivity].
        apply has_type_string in Hta as [address ->].
        apply has_type_string in Htq as [quantity ->].
        exists o, address. repeat split; try easy.
        destruct (lookup "id" o) as [i|] eqn:E.
        -- destruct (Hi i eq_refl) as [Hti| ->].
           ++ apply has_type_string in Hti as [id ->]. left. now exists id.
           ++ right. split; [now exists quantity | now right].
        -- right. split; [now exists quantity | now left].
    + intros (o & address & -> & Ha & [[id Hi]|[[quantity Hq] Hi]]).
      * left. now apply (Hnft o id address).
      * right. apply (Hft o "" address quantity); tauto.
  - intros o id address quantity -> Hi Ha Hq. split.
    + now apply (Hnft o id address).
    + apply (Hft o id address quantity); tauto.
Qed.

Lemma WyvernAsset_values_witness :
  well_typed (VObj [ ("id", VStr "7"); ("address", VStr "0x495f");
                     ("quantity", VStr "3") ]) (Ref "WyvernNFTAsset")
  /\ well_typed (VObj [ ("id", VStr "7"); ("address", VStr "0x495f");
                        ("quantity", VStr "3") ]) (Ref "WyvernFTAsset").
Proof.
  apply (proj2 (WyvernAsset_values
                  (VObj [ ("id", VStr "7"); ("address", VStr "0x495f");
                          ("quantity", VStr "3") ]))
           [ ("id", VStr "7"); ("address", VStr "0x495f");
             ("quantity", VStr "3") ] "7" "0x495f" "3"); reflexivity.
Defined.

(* ================================================================= *)
(** ** Trait statistics *)

Lemma has_type_indexed n v name exts own index fs :
  lookup name declarations = Some (DInterface exts own (Some index)) ->
  properties (Ref name) = Some fs ->
  has_type (S n) v (Ref name) = true <->
  exists o, v = VObj o
    /\ forallb (field_ok (has_type n) o) fs = true
    /\ forallb (fun p => has_type n (snd p) index) o = true.
Proof.
  intros Hd Hp. change (has_type (S n) v (Ref name))
    with (conforms (has_type n) v (Ref name)).
  unfold conforms. rewrite Hd. unfold object_ok. rewrite Hp.
  destruct v; simpl; try (split; [easy | now intros (o & ? & _)]).
  rewrite andb_true_iff. split.
  - intros [H1 H2]. now exists props.
  - intros (o & [= <-] & H1 & H2). now split.
Qed.

(** X7.  A value is a [StringTraitStats] exactly when it is an object all
    of whose values are numbers, and an [OpenSeaTraitStats] exactly when
    it is an object each of whose values is a [NumericalTraitStats] or a
    [StringTraitStats].  The two overlap: statistics holding just a
    numeric [min] and [max] are of both kinds. *)
Theorem trait_stats_values (v : value) :
  (well_typed v (Ref "StringTraitStats") <->
   exists o, v = VObj o /\ Forall (fun p => is_number (snd p)) o)
  /\ (well_typed v (Ref "OpenSeaTraitStats") <->
      exists o, v = VObj o
        /\ Forall (fun p => well_typed (snd p) (Ref "NumericalTraitStats")
                            \/ well_typed (snd p) (Ref "StringTraitStats")) o)
  /\ (forall lo hi,
        v = VObj [ ("min", VNum lo); ("max", VNum hi) ] ->
        well_typed v (Ref "NumericalTraitStats")
        /\ well_typed v (Ref "StringTraitStats")).
Proof.
  split; [|split].
  - split.
    + intros [n H]. destruct n as [|n]; [discriminate|].
      apply (has_type_indexed n v "StringTraitStats" _ _ _ _ eq_refl eq_refl)
        in H as (o & -> & _ & H).
      exists o. split; [reflexivity|]. apply Forall_forall. intros p Hp.
      rewrite forallb_forall in H. eapply has_type_number, H, Hp.
    + intros (o & -> & H). exists 2%nat.
      apply (has_type_indexed 1 _ "StringTraitStats" _ _ _ _ eq_refl eq_refl).
      exists o. split; [reflexivity|]. split; [reflexivity|].
      apply forallb_forall. intros p Hp. rewrite Forall_forall in H.
      now destruct (H p Hp) as [x ->].
  - split.
    + intros [n H]. destruct n as [|n]; [discriminate|].
      apply (has_type_indexed n v "OpenSeaTraitStats" _ _ _ _ eq_refl eq_refl)
        in H as (o & -> & _ & H).
      exists o. split; [reflexivity|]. apply Forall_forall. intros p Hp.
      rewrite forallb_forall in H. apply well_typed_union. exists n.
      now apply H.
    + intros (o & -> & H).
      assert (H' : Forall (fun x => well_typed x
                    (TUnion (Ref "NumericalTraitStats")
                            (Ref "StringTraitStats"))) (map snd o)).
      { apply Forall_forall. intros x Hx. apply in_map_iff in Hx as (p & <- & Hp).
        apply well_typed_union. rewrite Forall_forall in H. now apply H. }
      apply Forall_well_typed_depth in H' as [n Hn]. exists (S n).
      apply (has_type_indexed n _ "OpenSeaTraitStats" _ _ _ _ eq_refl eq_refl).
      exists o. split; [reflexivity|]. split; [reflexivity|].
      apply forallb_forall. intros p Hp. rewrite Forall_forall in Hn.
      apply Hn. now apply in_map.
  - intros lo hi ->. split; exists 2%nat; reflexivity.
Qed.

Lemma trait_stats_values_witness :
  well_typed (VObj [ ("min", VNum 1%float); ("max", VNum 9%float) ])
    (Ref "NumericalTraitStats")
  /\ well_typed (VObj [ ("min", VNum 1%float); ("max", VNum 9%float) ])
       (Ref "StringTraitStats").
Proof.
  apply (proj2 (proj2 (trait_stats_values
           (VObj [ ("min", VNum 1%float); ("max", VNum 9%float) ])))
           1%float 9%float).
  reflexivity.
Defined.

(* ================================================================= *)
(** ** Queries: every filter is optional *)

Lemma drop_optional_key n name exts own fs o k :
  lookup name declarations = Some (DInterface exts own None) ->
  properties (Ref name) = Some fs ->
  forallb fopt fs = true ->
  has_type (S n) (VObj o) (Ref name) = true ->
  has_type (S n) (VObj (remove_key k o)) (Ref name) = true
  /\ has_type (S n) (VObj []) (Ref name) = true.
Proof.
  intros Hd Hp Hopt H. rewrite forallb_forall in Hopt.
  apply (interface_fields n _ name _ _ _ Hd Hp) in H as (o' & [= <-] & H).
  split; apply (has_type_object n name _ _ _ _ Hd Hp); intros f Hf.
  - specialize (H f Hf). unfold field_ok in *. rewrite lookup_remove_key.
    destruct (String.eqb k (fname f)); [now apply Hopt | exact H].
  - unfold field_ok. simpl. now apply Hopt.
Qed.

(** X8.  In [EventData], [OpenSeaAPIConfig] and the four query interfaces
    every property is optional, the inherited ones included: a value stays
    in the type when any one key is taken out of it, and the empty object
    is in the type. *)
Theorem filters_can_be_dropped (name k : string) (o : list (string * value)) :
  In name all_optional_interfaces ->
  well_typed (VObj o) (Ref name) ->
  well_typed (VObj (remove_key k o)) (Ref name)
  /\ well_typed (VObj []) (Ref name).
Proof.
  intros Hname [n H]. destruct n as [|n]; [discriminate|].
  assert (Hdrop : has_type (S n) (VObj (remove_key k o)) (Ref name) = true
                  /\ has_type (S n) (VObj []) (Ref name) = true).
  { unfold all_optional_interfaces in Hname. simpl in Hname.
    repeat (destruct Hname as [<-|Hname];
      [ match goal with
        | |- context [ TRef ?x nil ] =>
            let d := eval vm_compute in (lookup x declarations) in
            let fs := eval vm_compute in (properties (Ref x)) in
            match d with
            | Some (DInterface ?exts ?own None) =>
                match fs with
                | Some ?l =>
                    apply (drop_optional_key n x exts own l o k);
                      [ vm_compute; reflexivity | vm_compute; reflexivity
                      | vm_compute; reflexivity | exact H ]
                end
            end
        end |]).
    contradiction. }
  destruct Hdrop as [H1 H2]. split; [now exists (S n) | now exists (S n)].
Qed.

Lemma filters_can_be_dropped_witness :
  well_typed (VObj (remove_key "side" example_query)) (Ref "OrderQuery")
  /\ well_typed (VObj []) (Ref "OrderQuery").
Proof.
  apply (filters_can_be_dropped "OrderQuery" "side" example_query).
  - simpl. tauto.
  - exists 3%nat. vm_compute. reflexivity.
Defined.

(* ================================================================= *)
(** ** [OrderJSON] as [RawWyvernOrderJSON] *)

Lemma lookup_remove_keys ks k o :
  lookup k (remove_keys ks o) = if mem k ks then None else lookup k o.
Proof.
  unfold remove_keys, mem. induction ks as [|j ks IH]; simpl; [reflexivity|].
  rewrite lookup_remove_key, IH, (String.eqb_sym k j).
  now destruct (String.eqb j k).
Qed.

Lemma In_omit ks fs f :
  In f (omit ks fs) <-> In f fs /\ mem (fname f) ks = false.
Proof. unfold omit. now rewrite filter_In, negb_true_iff. Qed.

Lemma properties_RawWyvernOrderJSON :
  properties (TOmit (Ref "OrderJSON") omitted_keys)
  = Some (omit omitted_keys
            (partial (own_of Decl.ECSignature) ++ own_of Decl.OrderJSON)).
Proof. vm_compute. reflexivity. Qed.

Lemma RawWyvernOrderJSON_object n o :
  (forall f, In f (omit omitted_keys
                     (partial (own_of Decl.ECSignature)
                      ++ own_of Decl.OrderJSON)) ->
             field_ok (has_type n) o f = true) ->
  well_typed (VObj o) (Ref "RawWyvernOrderJSON").
Proof.
  intros Ho.
  apply (well_typed_alias _ "RawWyvernOrderJSON"
           (TOmit (Ref "OrderJSON") omitted_keys) eq_refl).
  exists (S n).
  change (object_ok (has_type n) (VObj o)
            (TOmit (Ref "OrderJSON") omitted_keys) = true).
  unfold object_ok. rewrite properties_RawWyvernOrderJSON.
  apply forallb_forall. exact Ho.
Qed.

Lemma stripped_is_no_OrderJSON o :
  ~ well_typed (VObj (remove_keys omitted_keys o)) (Ref "OrderJSON").
Proof.
  remember (remove_keys omitted_keys o) as stripped eqn:E.
  intros [m Hm]. destruct m as [|m]; [discriminate|].
  eapply (required_property m _ "OrderJSON" _ _ "metadata"
            (Ref "ExchangeMetadata"))
    in Hm as (o' & x & [= <-] & Hx & _); [| reflexivity | reflexivity].
  rewrite E, lookup_remove_keys in Hx. discriminate Hx.
Qed.

(** X9.  Every [OrderJSON] value is a [RawWyvernOrderJSON] value as it
    stands, and again once the nine omitted keys are taken out of it;
    what is taken out includes the required [metadata], so the result is
    no [OrderJSON] any more. *)
Theorem OrderJSON_is_RawWyvernOrderJSON (o : list (string * value)) :
  well_typed (VObj o) (Ref "OrderJSON") ->
  well_typed (VObj o) (Ref "RawWyvernOrderJSON")
  /\ well_typed (VObj (remove_keys omitted_keys o)) (Ref "RawWyvernOrderJSON")
  /\ ~ well_typed (VObj (remove_keys omitted_keys o)) (Ref "OrderJSON").
Proof.
  intros [n H]. destruct n as [|n]; [discriminate|].
  apply (interface_fields n _ "OrderJSON" _ _ _ lookup_OrderJSON
           properties_OrderJSON) in H as (o' & [= <-] & H).
  split; [|split].
  - apply (RawWyvernOrderJSON_object n). intros f Hf. apply H.
    apply In_omit in Hf. tauto.
  - apply (RawWyvernOrderJSON_object n). intros f Hf.
    apply In_omit in Hf as [Hf Hk].
    specialize (H f Hf). unfold field_ok in *. rewrite lookup_remove_keys.
    now rewrite Hk.
  - apply stripped_is_no_OrderJSON.
Qed.

Lemma OrderJSON_is_RawWyvernOrderJSON_witness :
  well_typed example_order_json (Ref "RawWyvernOrderJSON")
  /\ well_typed (VObj (remove_keys omitted_keys example_order_json_fields))
       (Ref "RawWyvernOrderJSON")
  /\ ~ well_typed (VObj (remove_keys omitted_keys example_order_json_fields))
         (Ref "OrderJSON").
Proof.
  apply (OrderJSON_is_RawWyvernOrderJSON example_order_json_fields).
  exists 8%nat. vm_compute. reflexivity.
Defined.

(* ================================================================= *)
(** ** [Asset] *)

(** X10.  Every [Asset], and so every [OpenSeaAsset], has the keys
    [tokenId] and [tokenAddress]: the address is a string, the token id a
    string or [null], never missing or undefined. *)
Theorem Asset_token_id (v : value) :
  well_typed v (Ref "Asset") \/ well_typed v (Ref "OpenSeaAsset") ->
  exists o id address,
    v = VObj o
    /\ lookup "tokenId" o = Some id
    /\ (is_string id \/ id = VNull)
    /\ lookup "tokenAddress" o = Some (VStr address).
Proof.
  intros H.
  assert (Ha : well_typed v (Ref "Asset")).
  { destruct H as [H|H]; [exact H | now apply OpenSeaAsset_is_Asset]. }
  clear H. destruct Ha as [n H]. destruct n as [|n]; [discriminate|].
  pose proof H as H'.
  eapply (required_property n v "Asset" _ _ "tokenId" (TUnion TString TNull))
    in H as (o & id & -> & Hid & Ht); [| reflexivity | reflexivity].
  eapply (required_property n _ "Asset" _ _ "tokenAddress" TString)
    in H' as (o' & a & [= <-] & Ha & Hta); [| reflexivity | reflexivity].
  apply has_type_string in Hta as [address ->].
  exists o, id, address. repeat split; try easy.
  apply has_type_union in Ht as (m & _ & [Ht|Ht]).
  - left. eapply has_type_string, Ht.
  - right. destruct m; [discriminate|]. now destruct id.
Qed.

Lemma Asset_token_id_witness :
  exists o id address,
    VObj example_plain_asset = VObj o
    /\ lookup "tokenId" o = Some id
    /\ (is_string id \/ id = VNull)
    /\ lookup "tokenAddress" o = Some (VStr address).
Proof.
  apply (Asset_token_id (VObj example_plain_asset)).
  left. exists 3%nat. vm_compute. reflexivity.
Defined.

(* ================================================================= *)
(** ** Order discriminants *)

Lemma field_ok_overwrite n o k v f :
  (fname f = k -> has_type (S n) v (ftype f) = true) ->
  field_ok (has_type (S n)) o f = true ->
  field_ok (has_type (S n)) ((k, v) :: o) f = true.
Proof.
  intros Hk. unfold field_ok, lookup. simpl find.
  destruct (String.eqb_spec (fname f) k) as [E|_]; [|easy].
  intros _. cbv beta iota. cbn [snd]. now rewrite (Hk E).
Qed.

(** A property that takes a value can be set to it. *)
Lemma set_property n name exts own fs o k v :
  lookup name declarations = Some (DInterface exts own None) ->
  properties (Ref name) = Some fs ->
  property_admits fs k v = true ->
  has_type (S n) (VObj o) (Ref name) = true ->
  has_type (S (S n)) (VObj ((k, v) :: o)) (Ref name) = true.
Proof.
  intros Hd Hp Hk H.
  apply (interface_fields n _ name _ _ _ Hd Hp) in H as (o' & [= <-] & H).
  apply (has_type_object _ name _ _ _ _ Hd Hp). intros f Hf.
  apply field_ok_overwrite.
  - intros E. unfold property_admits in Hk. rewrite forallb_forall in Hk.
    specialize (Hk f Hf). rewrite E, String.eqb_refl in Hk. simpl in Hk.
    apply (has_type_le 1); [lia | exact Hk].
  - generalize (H f Hf). apply field_ok_impl. intros y t. apply has_type_mono.
Qed.

(** X11.  In an [UnhashedOrder], and so in an [UnsignedOrder] and an
    [Order], each of [feeMethod], [side], [saleKind] and [howToCall] is
    there and holds a number; in an [OrderQuery], [side] holds a number
    when it is given and defined.  The enums that type them put no bound
    on that number: every number is a value of [FeeMethod], [OrderSide],
    [SaleKind] and [HowToCall], and a value of any of the five order
    interfaces is one still with any number whatever under any of the four
    names. *)
Theorem order_discriminants_are_numbers :
  (forall v,
     well_typed v (Ref "UnhashedOrder") \/ well_typed v (Ref "UnsignedOrder")
     \/ well_typed v (Ref "Order") ->
     exists o, v = VObj o
       /\ forall k e, In (k, e) order_discriminants ->
            exists x, lookup k o = Some (VNum x))
  /\ (forall o v,
        well_typed (VObj o) (Ref "OrderQuery") -> lookup "side" o = Some v ->
        v = VUndefined \/ exists x, v = VNum x)
  /\ (forall k e x,
        In (k, e) order_discriminants -> well_typed (VNum x) (Ref e))
  /\ (forall name k e o x,
        In name order_interfaces -> In (k, e) order_discriminants ->
        well_typed (VObj o) (Ref name) ->
        well_typed (VObj ((k, VNum x) :: o)) (Ref name)).
Proof.
  split; [|split; [|split]].
  - intros v H.
    assert (Hu : well_typed v (Ref "UnhashedOrder")).
    { destruct H as [H|[H|H]]; [exact H | |].
      - now apply UnsignedOrder_is_UnhashedOrder.
      - now apply UnsignedOrder_is_UnhashedOrder, Order_is_UnsignedOrder. }
    clear H. destruct Hu as [n H]. destruct n as [|n]; [discriminate|].
    pose proof H as H0.
    apply (interface_fields n v "UnhashedOrder" _ _ _ lookup_UnhashedOrder
             properties_UnhashedOrder) in H0 as (o & -> & _).
    exists o. split; [reflexivity|]. intros k e Hk.
    assert (Hs : signature_of (Ref "UnhashedOrder") k = Some (req k (Ref e))
                 /\ exists members,
                      lookup e declarations = Some (DEnumNum members)).
    { unfold order_discriminants in Hk. simpl in Hk.
      destruct Hk as [[= <- <-]|[[= <- <-]|[[= <- <-]|[[= <- <-]|[]]]]];
        (split; [reflexivity | eexists; reflexivity]). }
    destruct Hs as [Hs [members Hm]].
    eapply (required_property n _ "UnhashedOrder" _ _ k (Ref e))
      in H as (o' & y & [= <-] & Hy & Ht); [| reflexivity | exact Hs].
    apply (has_type_enum_number _ _ _ _ Hm), has_type_number in Ht as [x ->].
    now exists x.
  - intros o v [n H] Hv. destruct n as [|n]; [discriminate|].
    eapply (optional_property n (VObj o) "OrderQuery" _ _ "side"
              (Ref "OrderSide"))
      in H as (o' & [= <-] & H); [| reflexivity | reflexivity].
    destruct (H v Hv) as [Ht| ->]; [right | now left].
    apply (has_type_enum_number n v "OrderSide" _ eq_refl) in Ht.
    now apply has_type_number in Ht.
  - intros k e x Hk. exists 1%nat. simpl in Hk.
    destruct Hk as [[= <- <-]|[[= <- <-]|[[= <- <-]|[[= <- <-]|[]]]]];
      reflexivity.
  - intros name k e o x Hname Hk [n H].
    destruct n as [|n]; [discriminate|]. exists (S (S n)).
    assert (Hfs : exists exts own fs,
              lookup name declarations = Some (DInterface exts own None)
              /\ properties (Ref name) = Some fs
              /\ property_admits fs k (VNum x) = true).
    { simpl in Hname, Hk.
      destruct Hname as [<-|[<-|[<-|[<-|[<-|[]]]]]];
        destruct Hk as [[= <- <-]|[[= <- <-]|[[= <- <-]|[[= <- <-]|[]]]]];
        eexists; eexists; eexists;
        (split; [vm_compute; reflexivity|]);
        (split; [vm_compute; reflexivity|]);
        vm_compute; reflexivity. }
    destruct Hfs as (exts & own & fs & Hd & Hp & Hadm).
    exact (set_property n name exts own fs o k (VNum x) Hd Hp Hadm H).
Qed.

Lemma order_discriminants_are_numbers_witness :
  exists o, example_order true true true = VObj o
    /\ forall k e, In (k, e) order_discriminants ->
         exists x, lookup k o = Some (VNum x).
Proof.
  apply (proj1 order_discriminants_are_numbers).
  right. right. exists 8%nat. vm_compute. reflexivity.
Defined.
